(** * MacMon MCP server: the metrics reporter and its dispatcher

    A shallow embedding of [server.py].

    - A Python [int] is a [Z].  A Python [float] is modelled by the exact
      rational number it holds ([Q]); infinities and NaN are not modelled.
      The comparisons with a threshold, the divisions by 1024 (a power
      of two) and the rounding done by a format such as [.1f] are exact on
      the value of the float, and so they are here; the floor division and
      remainder of [format_uptime] are taken exactly.  Where the code turns
      an [int] into a [float] ([format_bytes]), the conversion rounds to 53
      bits and raises [OverflowError] as Python does.
    - A value that comes from the caller ([arguments]) has the type it was
      sent with: the code checks none.
    - [repr] of a float, [str.upper] and [strftime] belong to the Python
      runtime: they are parameters of the functions that call them.
    - The reads of the operating system ([psutil]) and of the clock are
      inputs: one record holds the readings of a request, and every
      function below is a pure function of it.
    - A call that raises is a [Raise] of the result type. *)

From Stdlib Require Import ZArith QArith Qround Qabs Lia Lqa Bool List.
From Stdlib Require Import Strings.String Strings.Ascii.
From Stdlib Require Import Numbers.DecimalString Numbers.DecimalPos.
From Stdlib Require Import Sorting.Permutation Sorting.Sorted.
Import ListNotations.

Open Scope Q_scope.
Open Scope string_scope.

(* ------------------------------------------------------------------ *)
(** * Calls that return and calls that raise *)

Inductive Exception :=
| ValueError (msg : string)
| AttributeError (msg : string)
| TypeError (msg : string)
| OverflowError (msg : string).

Inductive Result (A : Type) :=
| Return (a : A)
| Raise (e : Exception).
Arguments Return {A} a.
Arguments Raise {A} e.

(** The rest of a function runs when the call returned. *)
Definition bind {A B : Type} (c : Result A) (k : A -> Result B) : Result B :=
  match c with
  | Return a => k a
  | Raise e => Raise e
  end.

Notation "x <- c ;; k" := (bind c (fun x => k))
  (at level 61, c at next level, right associativity).

(* ------------------------------------------------------------------ *)
(** * Python's conversions *)

Module Py.


(** [str(n)] and [f"{n}"] for an [int]. *)
Definition str_int (n : Z) : string :=
  NilEmpty.string_of_int (Z.to_int n).

(** Nearest integer, ties to the even neighbour: the rounding of Python's
    float formatting, applied to the exact value. *)
Definition round_half_even (q : Q) : Z :=
  let f := Qfloor q in
  match Qcompare (q - inject_Z f) (1 # 2) with
  | Lt => f
  | Gt => (f + 1)%Z
  | Eq => if Z.even f then f else (f + 1)%Z
  end.

(** [float(n)] for an [int]: the nearest number with 53 significant bits,
    ties to the even one; [OverflowError] when that number is 2**1024 or
    more. *)
Definition float_of_int (n : Z) : Result Q :=
  let a := Z.abs n in
  let e := Z.max 0 (Z.log2 a - 52) in
  let m := round_half_even (inject_Z a / inject_Z (2 ^ e)) in
  if (2 ^ 1024 <=? m * 2 ^ e)%Z
  then Raise (OverflowError "int too large to convert to float")
  else Return (inject_Z (Z.sgn n * m * 2 ^ e)).

(** The [d] low decimal digits of [n], most significant first. *)
Fixpoint frac_digits (d : nat) (n : Z) : string :=
  match d with
  | O => ""
  | S d' => frac_digits d' (n / 10) ++ str_int (n mod 10)
  end.

(** [f"{x:.1f}"], [f"{x:.2f}"]: fixed notation with [d >= 1] decimals.
    The sign is the sign of [x] (Python prints "-0.0" for a small negative
    number). *)
Definition format_fixed (d : nat) (x : Q) : string :=
  let t := round_half_even (Qabs x * inject_Z (10 ^ Z.of_nat d)) in
  (if Qlt_le_dec x 0 then "-" else "")
    ++ str_int (t / 10 ^ Z.of_nat d) ++ "." ++ frac_digits d t.

(** A comma before every group of three digits, counted from the right. *)
Fixpoint group_thousands (digits : string) : string :=
  match digits with
  | EmptyString => ""
  | String c rest =>
      String c
        (if (negb (Nat.eqb (length rest) 0)
             && Nat.eqb (Nat.modulo (length rest) 3) 0)%bool
         then "," ++ group_thousands rest
         else group_thousands rest)
  end.

(** [f"{n:,}"] for an [int]. *)
Definition format_commas (n : Z) : string :=
  (if (n <? 0)%Z then "-" else "") ++ group_thousands (str_int (Z.abs n)).

(** ["sep".join(l)]. *)
Fixpoint join (sep : string) (l : list string) : string :=
  match l with
  | [] => ""
  | [s] => s
  | s :: rest => s ++ sep ++ join sep rest
  end.

(** [l[:limit]]: a negative bound counts from the end of the list. *)
Definition slice_to {A : Type} (limit : Z) (l : list A) : list A :=
  if (0 <=? limit)%Z then firstn (Z.to_nat limit) l
  else firstn (List.length l - Z.to_nat (- limit))%nat l.

Section Sort.
Context {A : Type} (key : A -> Q).

(** [x] goes in front of the first element whose key is not greater. *)
Fixpoint insert_desc (x : A) (l : list A) : list A :=
  match l with
  | [] => [x]
  | y :: l' =>
      if Qlt_le_dec (key x) (key y) then y :: insert_desc x l'
      else x :: y :: l'
  end.

(** [l.sort(key=key, reverse=True)].  Python's sort is stable, also with
    [reverse=True]; the result of a stable sort does not depend on the
    algorithm, and insertion from the right computes it. *)
Fixpoint sort_desc (l : list A) : list A :=
  match l with
  | [] => []
  | x :: l' => insert_desc x (sort_desc l')
  end.
End Sort.

(** [enumerate(l, start)]. *)
Fixpoint enumerate {A : Type} (start : Z) (l : list A) : list (Z * A) :=
  match l with
  | [] => []
  | x :: l' => (start, x) :: enumerate (start + 1) l'
  end.

End Py.

(* ------------------------------------------------------------------ *)
(** * The two formatting helpers *)

(** The argument of [format_bytes] is an [int] (what [psutil] gives) or a
    [float]; after the first division it is a [float]. *)
Inductive number :=
| Int (n : Z)
| Float (x : Q).

(** The conversion that [f"{bytes:.1f}"] and [bytes / 1024.0] make. *)
Definition to_float (bytes : number) : Result Q :=
  match bytes with
  | Int n => Py.float_of_int n
  | Float x => Return x
  end.

(** [bytes < 1024.0]: Python compares an [int] with a [float] exactly. *)
Definition lt_1024 (bytes : number) : bool :=
  match bytes with
  | Int n => (n <? 1024)%Z
  | Float x => if Qlt_le_dec x 1024 then true else false
  end.

(** The loop of [format_bytes] over the units that remain. *)
Fixpoint format_bytes_from (units : list string) (bytes : number)
  : Result string :=
  match units with
  | [] => x <- to_float bytes ;; Return (Py.format_fixed 1 x ++ "PB")
  | unit :: units' =>
      if lt_1024 bytes
      then x <- to_float bytes ;; Return (Py.format_fixed 1 x ++ unit)
      else x <- to_float bytes ;; format_bytes_from units' (Float (x / 1024))
  end.

Definition format_bytes (bytes : number) : Result string :=
  format_bytes_from ["B"; "KB"; "MB"; "GB"; "TB"] bytes.

(** [format_uptime]: [now] is the reading of [datetime.now()], both
    instants in seconds.  [//] is the floor division and [%] the floor
    remainder, whose sign is that of the divisor. *)
Definition floordiv (x : Q) (d : Z) : Z := Qfloor (x / inject_Z d).
Definition floormod (x : Q) (d : Z) : Q := x - inject_Z (d * floordiv x d)%Z.

Definition uptime_days (uptime_seconds : Q) : Z :=
  floordiv uptime_seconds 86400.
Definition uptime_hours (uptime_seconds : Q) : Z :=
  floordiv (floormod uptime_seconds 86400) 3600.
Definition uptime_minutes (uptime_seconds : Q) : Z :=
  floordiv (floormod uptime_seconds 3600) 60.

Definition format_uptime (now boot_time : Q) : string :=
  let uptime_seconds := now - boot_time in
  let days := uptime_days uptime_seconds in
  let hours := uptime_hours uptime_seconds in
  let minutes := uptime_minutes uptime_seconds in
  if (0 <? days)%Z then
    Py.str_int days ++ "d " ++ Py.str_int hours ++ "h "
      ++ Py.str_int minutes ++ "m"
  else if (0 <? hours)%Z then
    Py.str_int hours ++ "h " ++ Py.str_int minutes ++ "m"
  else Py.str_int minutes ++ "m".

(* ------------------------------------------------------------------ *)
(** * What the operating system reports

    One record per [psutil] result type, and one record, [psutil], for the
    readings taken during a request.  Sizes and counters are [int]s,
    percentages, loads and frequencies are [float]s. *)

Module svmem.
Record t := { percent : Q; used : Z; total : Z; available : Z }.
End svmem.

Module sswap.
Record t := { percent : Q; used : Z; total : Z }.
End sswap.

Module sdiskusage.
Record t := { percent : Q; used : Z; total : Z; free : Z }.
End sdiskusage.

Module snetio.
Record t := {
  bytes_sent : Z; bytes_recv : Z; packets_sent : Z; packets_recv : Z;
  errin : Z; errout : Z; dropin : Z; dropout : Z }.
End snetio.

Module snicaddr.
Record t := { family : Z; address : string }.
End snicaddr.

Module scpufreq.
Record t := { current : Q; max : Q }.
End scpufreq.

(** [proc.info] of one process: a field the system refuses to give is
    [None]; [info_rss] is [memory_info.rss]. *)
Record ProcInfo := {
  info_pid : Z;
  info_name : option string;
  info_cpu_percent : option Q;
  info_memory_percent : option Q;
  info_rss : option Z }.

Record psutil := {
  cpu_percent : Q;
  cpu_percent_percpu : list Q;
  cpu_count : option Z;
  cpu_count_physical : option Z;
  getloadavg : Q * Q * Q;
  cpu_freq : option scpufreq.t;     (* [None]: no reading, or the read raises *)
  virtual_memory : svmem.t;
  swap_memory : sswap.t;
  disk_usage : sdiskusage.t;
  boot_time : Q;
  datetime_now : Q;
  process_iter : list ProcInfo;
  net_io_counters : option snetio.t;  (* [None] on a machine with no interface *)
  net_if_addrs : list (string * list snicaddr.t) }.

(* ------------------------------------------------------------------ *)
(** * Alerts and process entries *)

Inductive Level := medium | high.

Record Alert := {
  level : Level;
  type : string;
  message : string;
  value : Q }.

(** One entry of the list [processes] of [get_top_processes]. *)
Record Process := {
  pid : Z;
  name : option string;
  proc_cpu_percent : Q;
  proc_memory_percent : Q;
  memory_mb : Q }.

Record TextContent := { content_type : string; text : string }.

(** A value of the [arguments] of a tool call, as decoded from JSON.  The
    contents of a list or of a dict are never looked at. *)
Inductive pyobj :=
| PyNone
| PyBool (b : bool)
| PyInt (n : Z)
| PyFloat (x : Q)
| PyStr (s : string)
| PyList
| PyDict.

(** [type(v).__name__]. *)
Definition type_name (v : pyobj) : string :=
  match v with
  | PyNone => "NoneType"
  | PyBool _ => "bool"
  | PyInt _ => "int"
  | PyFloat _ => "float"
  | PyStr _ => "str"
  | PyList => "list"
  | PyDict => "dict"
  end.

(** The [arguments] themselves: a dict, its keys distinct. *)
Definition dict := list (string * pyobj).

(** [d.get(key, default)]. *)
Definition dict_get (d : dict) (key : string) (default : pyobj) : pyobj :=
  match find (fun '(k, _) => String.eqb k key) d with
  | Some (_, v) => v
  | None => default
  end.

Definition nl : string := String (ascii_of_nat 10) "".

(** [f"{x}"] for a value that may be [None]. *)
Definition str_opt {A : Type} (str : A -> string) (x : option A) : string :=
  match x with Some a => str a | None => "None" end.

Section Server.

(** [repr] of a [float] (shortest decimal that reads back), [str.upper]
    and the local-time rendering of a timestamp come from the Python
    runtime. *)
Variable repr_float : Q -> string.
Variable str_upper : string -> string.
Variable strftime : Q -> string.

Definition check_system_alerts (os : psutil) : list Alert :=
  let alerts := [] in
  (* Check CPU *)
  let cpu_percent := cpu_percent os in
  let alerts :=
    if Qlt_le_dec 80 cpu_percent then
      (alerts ++ [ {| level := if Qlt_le_dec 90 cpu_percent then high else medium;
                     type := "CPU";
                     message := "CPU usage is " ++ repr_float cpu_percent ++ "%";
                     value := cpu_percent |} ])%list
    else alerts in
  (* Check Memory *)
  let memory := virtual_memory os in
  let alerts :=
    if Qlt_le_dec 85 (svmem.percent memory) then
      (alerts ++ [ {| level := if Qlt_le_dec 95 (svmem.percent memory)
                              then high else medium;
                     type := "Memory";
                     message := "Memory usage is "
                                  ++ repr_float (svmem.percent memory) ++ "%";
                     value := svmem.percent memory |} ])%list
    else alerts in
  (* Check Disk *)
  let disk := disk_usage os in
  let alerts :=
    if Qlt_le_dec 90 (sdiskusage.percent disk) then
      (alerts ++ [ {| level := if Qlt_le_dec 95 (sdiskusage.percent disk)
                              then high else medium;
                     type := "Disk";
                     message := "Disk usage is "
                                  ++ repr_float (sdiskusage.percent disk) ++ "%";
                     value := sdiskusage.percent disk |} ])%list
    else alerts in
  (* Check Swap *)
  let swap := swap_memory os in
  let alerts :=
    if Qlt_le_dec 75 (sswap.percent swap) then
      (alerts ++ [ {| level := medium;
                     type := "Swap";
                     message := "Swap usage is "
                                  ++ repr_float (sswap.percent swap) ++ "%";
                     value := sswap.percent swap |} ])%list
    else alerts in
  alerts.

Definition get_system_status (os : psutil) : Result string :=
  let cpu_percent := cpu_percent os in
  let cpu_count := cpu_count os in
  let memory := virtual_memory os in
  let swap := swap_memory os in
  let disk := disk_usage os in
  let boot_time := boot_time os in
  let uptime := format_uptime (datetime_now os) boot_time in
  let '(load1, load5, load15) := getloadavg os in
  ram_used <- format_bytes (Int (svmem.used memory)) ;;
  ram_total <- format_bytes (Int (svmem.total memory)) ;;
  swap_used <- format_bytes (Int (sswap.used swap)) ;;
  swap_total <- format_bytes (Int (sswap.total swap)) ;;
  ram_available <- format_bytes (Int (svmem.available memory)) ;;
  disk_used <- format_bytes (Int (sdiskusage.used disk)) ;;
  disk_total <- format_bytes (Int (sdiskusage.total disk)) ;;
  disk_free <- format_bytes (Int (sdiskusage.free disk)) ;;
  Return
    ("🖥️ **MacMon System Status**" ++ nl ++ nl
     ++ "**CPU**" ++ nl
     ++ "- Usage: " ++ repr_float cpu_percent ++ "% ("
          ++ str_opt Py.str_int cpu_count ++ " cores)" ++ nl
     ++ "- Load Average: "
          ++ Py.join ", " (map repr_float [load1; load5; load15]) ++ nl ++ nl
     ++ "**Memory**" ++ nl
     ++ "- RAM: " ++ repr_float (svmem.percent memory) ++ "% used ("
          ++ ram_used ++ " / " ++ ram_total ++ ")" ++ nl
     ++ "- Swap: " ++ repr_float (sswap.percent swap) ++ "% used ("
          ++ swap_used ++ " / " ++ swap_total ++ ")" ++ nl
     ++ "- Available: " ++ ram_available ++ nl ++ nl
     ++ "**Storage**" ++ nl
     ++ "- Disk Usage: " ++ repr_float (sdiskusage.percent disk) ++ "% used"
          ++ nl
     ++ "- Used: " ++ disk_used ++ " / " ++ disk_total ++ nl
     ++ "- Free: " ++ disk_free ++ nl ++ nl
     ++ "**System**" ++ nl
     ++ "- Uptime: " ++ uptime ++ nl
     ++ "- Boot Time: " ++ strftime boot_time).

(** The entry that the enumeration loop appends for one process. *)
Definition process_of_info (pinfo : ProcInfo) : Process :=
  {| pid := info_pid pinfo;
     name := info_name pinfo;
     proc_cpu_percent :=
       match info_cpu_percent pinfo with Some c => c | None => 0 end;
     proc_memory_percent :=
       match info_memory_percent pinfo with Some m => m | None => 0 end;
     memory_mb :=
       match info_rss pinfo with
       | Some rss => inject_Z rss / 1024 / 1024
       | None => 0
       end |}.

(** The three lines of one process in the report. *)
Definition process_lines (i : Z) (proc : Process) : string :=
  Py.str_int i ++ ". **" ++ str_opt (fun s => s) (name proc)
    ++ "** (PID: " ++ Py.str_int (pid proc) ++ ")" ++ nl
  ++ "   • CPU: " ++ Py.format_fixed 1 (proc_cpu_percent proc) ++ "%" ++ nl
  ++ "   • Memory: " ++ Py.format_fixed 1 (proc_memory_percent proc) ++ "% ("
    ++ Py.format_fixed 1 (memory_mb proc) ++ " MB)" ++ nl ++ nl.

Definition processes_header (limit : Z) (sort_by : string) : string :=
  "🔝 **Top " ++ Py.str_int limit ++ " Processes by " ++ str_upper sort_by
    ++ "**" ++ nl ++ nl.

(** The sort, the cut and the rendering, on the list [processes], for a
    limit that is an [int] and a key that is a [str]. *)
Definition top_processes_report (processes : list Process)
    (limit : Z) (sort_by : string) : string :=
  let processes :=
    if String.eqb sort_by "memory"
    then Py.sort_desc proc_memory_percent processes
    else Py.sort_desc proc_cpu_percent processes in
  fold_left (fun result '(i, proc) => result ++ process_lines i proc)
    (Py.enumerate 1 (Py.slice_to limit processes))
    (processes_header limit sort_by).

(** [sort_by.upper()]: only a [str] has the method. *)
Definition upper_of (sort_by : pyobj) : Result string :=
  match sort_by with
  | PyStr s => Return (str_upper s)
  | v =>
      Raise (AttributeError
               ("'" ++ type_name v ++ "' object has no attribute 'upper'"))
  end.

(** [f"{limit}"] and [processes[:limit]].  The text cannot raise and is
    used only when the slice, which comes after it, is made: an [int]
    (a [bool] is one) or [None] bounds a slice, anything else raises. *)
Definition text_and_slice (limit : pyobj) (processes : list Process)
  : Result (string * list Process) :=
  match limit with
  | PyInt n => Return (Py.str_int n, Py.slice_to n processes)
  | PyBool true => Return ("True", Py.slice_to 1 processes)
  | PyBool false => Return ("False", Py.slice_to 0 processes)
  | PyNone => Return ("None", processes)
  | _ =>
      Raise (TypeError
               "slice indices must be integers or None or have an __index__ method")
  end.

(** [get_top_processes] from the list [processes] on, with the arguments
    as they were sent.  [sort_by == 'memory'] is false of anything that is
    not that word. *)
Definition get_top_processes_of (processes : list Process)
    (limit sort_by : pyobj) : Result string :=
  let processes :=
    match sort_by with
    | PyStr "memory" => Py.sort_desc proc_memory_percent processes
    | _ => Py.sort_desc proc_cpu_percent processes
    end in
  upper <- upper_of sort_by ;;
  shown <- text_and_slice limit processes ;;
  Return
    (fold_left (fun result '(i, proc) => result ++ process_lines i proc)
       (Py.enumerate 1 (snd shown))
       ("🔝 **Top " ++ fst shown ++ " Processes by " ++ upper ++ "**"
          ++ nl ++ nl)).

Definition get_top_processes (os : psutil) (limit sort_by : pyobj)
  : Result string :=
  get_top_processes_of (map process_of_info (process_iter os)) limit sort_by.

Definition get_network_stats (os : psutil) : Result string :=
  match net_io_counters os with
  | None =>
      Raise (AttributeError
               "'NoneType' object has no attribute 'bytes_sent'")
  | Some stats =>
      bytes_sent <- format_bytes (Int (snetio.bytes_sent stats)) ;;
      bytes_recv <- format_bytes (Int (snetio.bytes_recv stats)) ;;
      let result :=
        "🌐 **Network Statistics**" ++ nl ++ nl
        ++ "**Data Transfer**" ++ nl
        ++ "- Sent: " ++ bytes_sent ++ nl
        ++ "- Received: " ++ bytes_recv ++ nl ++ nl
        ++ "**Packets**" ++ nl
        ++ "- Sent: " ++ Py.format_commas (snetio.packets_sent stats) ++ nl
        ++ "- Received: " ++ Py.format_commas (snetio.packets_recv stats) ++ nl
        ++ "- Errors: "
        ++ Py.format_commas (snetio.errin stats + snetio.errout stats) ++ nl
        ++ "- Dropped: "
        ++ Py.format_commas (snetio.dropin stats + snetio.dropout stats) in
      let active_interfaces :=
        flat_map
          (fun '(interface, addr_list) =>
             map (fun addr =>
                    "• " ++ interface ++ ": " ++ snicaddr.address addr)
               (filter (fun addr => (snicaddr.family addr =? 2)%Z) addr_list))
          (net_if_addrs os) in
      Return
        match active_interfaces with
        | [] => result
        | _ => result ++ nl ++ nl ++ "**Active Interfaces**" ++ nl
                 ++ Py.join nl active_interfaces
        end
  end.

Definition get_cpu_details (os : psutil) : string :=
  let cpu_percent_per_core := cpu_percent_percpu os in
  let result :=
    "🔧 **Detailed CPU Information**" ++ nl ++ nl
    ++ "**Overall**" ++ nl
    ++ "- Physical Cores: " ++ str_opt Py.str_int (cpu_count_physical os) ++ nl
    ++ "- Logical Cores: " ++ str_opt Py.str_int (cpu_count os) ++ nl in
  let result :=
    match cpu_freq os with
    | Some cpu_freq =>
        let result :=
          result ++ "• Current Frequency: "
            ++ Py.format_fixed 2 (scpufreq.current cpu_freq) ++ " MHz" ++ nl in
        if Qlt_le_dec 0 (scpufreq.max cpu_freq)
        then result ++ "• Max Frequency: "
               ++ Py.format_fixed 2 (scpufreq.max cpu_freq) ++ " MHz" ++ nl
        else result
    | None => result
    end in
  let result := result ++ nl ++ "**Per-Core Usage**" ++ nl in
  let result :=
    fold_left
      (fun result '(i, percent) =>
         result ++ "• Core " ++ Py.str_int i ++ ": " ++ repr_float percent
           ++ "%" ++ nl)
      (Py.enumerate 0 cpu_percent_per_core) result in
  let result := result ++ nl ++ "**Load Average**" ++ nl in
  let '(load1, load5, load15) := getloadavg os in
  result ++ "• 1 min: " ++ Py.format_fixed 2 load1 ++ nl
    ++ "• 5 min: " ++ Py.format_fixed 2 load5 ++ nl
    ++ "• 15 min: " ++ Py.format_fixed 2 load15.

(** The text of the [check_alerts] tool for a list of alerts. *)
Definition no_alerts_text : string := "✅ All systems normal - no alerts".

Definition alert_line (alert : Alert) : string :=
  let emoji := match level alert with high => "🔴" | medium => "🟡" end in
  emoji ++ " **" ++ type alert ++ "**: " ++ message alert ++ nl.

Definition alerts_text (alerts : list Alert) : string :=
  match alerts with
  | [] => no_alerts_text
  | _ =>
      fold_left (fun response alert => response ++ alert_line alert)
        alerts ("⚠️ **System Alerts**" ++ nl ++ nl)
  end.

Definition text_content (s : string) : list TextContent :=
  [ {| content_type := "text"; text := s |} ].

Definition handle_call_tool (os : psutil) (name : string)
    (arguments : option dict) : Result (list TextContent) :=
  if String.eqb name "get_system_status" then
    status <- get_system_status os ;;
    Return (text_content status)
  else if String.eqb name "get_top_processes" then
    let limit :=
      match arguments with
      | Some a => dict_get a "limit" (PyInt 10)
      | None => PyInt 10
      end in
    let sort_by :=
      match arguments with
      | Some a => dict_get a "sort_by" (PyStr "cpu")
      | None => PyStr "cpu"
      end in
    result <- get_top_processes os limit sort_by ;;
    Return (text_content result)
  else if String.eqb name "get_network_stats" then
    result <- get_network_stats os ;;
    Return (text_content result)
  else if String.eqb name "get_cpu_details" then
    Return (text_content (get_cpu_details os))
  else if String.eqb name "check_alerts" then
    Return (text_content (alerts_text (check_system_alerts os)))
  else Raise (ValueError ("Unknown tool: " ++ name)).

End Server.

(* ------------------------------------------------------------------ *)
(** * Definitions used to state the properties *)

(** The names that [handle_list_tools] advertises, in its order. *)
Definition tool_names : list string :=
  ["get_system_status"; "get_top_processes"; "get_network_stats";
   "get_cpu_details"; "check_alerts"].

(** ** The threshold table, as the specification words it

    A second description of the alert rule, to be compared with
    [check_system_alerts]: the high threshold is looked at first. *)
Definition spec_severity (medium_threshold : Q) (high_threshold : option Q)
    (v : Q) : option Level :=
  match high_threshold with
  | Some h =>
      if Qlt_le_dec h v then Some high
      else if Qlt_le_dec medium_threshold v then Some medium
      else None
  | None => if Qlt_le_dec medium_threshold v then Some medium else None
  end.

Definition spec_threshold_table
  : list (string * (psutil -> Q) * Q * option Q) :=
  [ ("CPU", cpu_percent, 80, Some 90);
    ("Memory", fun os => svmem.percent (virtual_memory os), 85, Some 95);
    ("Disk", fun os => sdiskusage.percent (disk_usage os), 90, Some 95);
    ("Swap", fun os => sswap.percent (swap_memory os), 75, None) ].

Definition spec_evaluate_alerts (os : psutil) : list (string * Level) :=
  flat_map
    (fun '(domain, read, medium_threshold, high_threshold) =>
       match spec_severity medium_threshold high_threshold (read os) with
       | Some l => [(domain, l)]
       | None => []
       end)
    spec_threshold_table.

(** What the specification's examples tell of an alert. *)
Definition domain_and_level (a : Alert) : string * Level := (type a, level a).

(** A sample with the four percentages of the alert rule; every other
    reading is zero or empty. *)
Definition sample (cpu memory disk swap : Q) : psutil :=
  {| cpu_percent := cpu;
     cpu_percent_percpu := [];
     cpu_count := None;
     cpu_count_physical := None;
     getloadavg := (0, 0, 0);
     cpu_freq := None;
     virtual_memory :=
       {| svmem.percent := memory; svmem.used := 0; svmem.total := 0;
          svmem.available := 0 |};
     swap_memory :=
       {| sswap.percent := swap; sswap.used := 0; sswap.total := 0 |};
     disk_usage :=
       {| sdiskusage.percent := disk; sdiskusage.used := 0;
          sdiskusage.total := 0; sdiskusage.free := 0 |};
     boot_time := 0;
     datetime_now := 0;
     process_iter := [];
     net_io_counters :=
       Some {| snetio.bytes_sent := 0; snetio.bytes_recv := 0;
               snetio.packets_sent := 0; snetio.packets_recv := 0;
               snetio.errin := 0; snetio.errout := 0;
               snetio.dropin := 0; snetio.dropout := 0 |};
     net_if_addrs := [] |}.

(** ** Reading a number back from a report

    The number a text starts with: an optional sign, decimal digits, a
    point, decimal digits. *)
Definition is_digit (c : ascii) : bool :=
  (Nat.leb 48 (nat_of_ascii c) && Nat.leb (nat_of_ascii c) 57)%bool.

Fixpoint span_digits (s : string) : string * string :=
  match s with
  | EmptyString => ("", "")
  | String c rest =>
      if is_digit c
      then let (digits, tail) := span_digits rest in (String c digits, tail)
      else ("", s)
  end.

Definition unsigned_value (s : string) : option Q :=
  match span_digits s with
  | (String c ip, String "." rest) =>
      let (fp, _) := span_digits rest in
      match NilEmpty.uint_of_string (String c ip), fp,
            NilEmpty.uint_of_string fp with
      | Some i, String _ _, Some f =>
          Some (inject_Z (Z.of_uint i)
                + inject_Z (Z.of_uint f)
                  / inject_Z (10 ^ Z.of_nat (length fp)))
      | _, _, _ => None
      end
  | _ => None
  end.

Definition leading_value (s : string) : option Q :=
  match s with
  | String "-" rest => option_map Qopp (unsigned_value rest)
  | _ => unsigned_value s
  end.

(** The fraction that [sort_by] selects: memory for the exact word
    "memory", cpu for "cpu". *)
Definition selected_fraction (sort_by : string) : Process -> Q :=
  if String.eqb sort_by "memory" then proc_memory_percent
  else proc_cpu_percent.

(** Descending order of a fraction. *)
Definition descending (key : Process -> Q) (a b : Process) : Prop :=
  key b <= key a.

(** The entries whose fraction equals [k], in the order of the list. *)
Definition with_fraction (key : Process -> Q) (k : Q) (l : list Process)
  : list Process :=
  filter (fun p => Qeq_bool (key p) k) l.

(** The entries of a list rendered with the numbers 1, 2, 3, ... *)
Definition numbered_entries (l : list Process) : list string :=
  map (fun '(i, proc) => process_lines (Z.of_nat i) proc)
    (combine (seq 1 (List.length l)) l).

(** Three processes, the first and the last with the same cpu fraction. *)
Definition three_processes : list Process :=
  [ {| pid := 11; name := Some "init"; proc_cpu_percent := 1.5;
       proc_memory_percent := 0.25; memory_mb := 12 |};
    {| pid := 22; name := Some "python"; proc_cpu_percent := 7.25;
       proc_memory_percent := 3.5; memory_mb := 150.5 |};
    {| pid := 33; name := Some "sshd"; proc_cpu_percent := 1.5;
       proc_memory_percent := 3.5; memory_mb := 0 |} ].

(** The units of [format_bytes], smallest first. *)
Definition byte_units : list string := ["B"; "KB"; "MB"; "GB"; "TB"; "PB"].

(** The count [n] scaled to the unit of index [k]. *)
Definition scaled (n : Q) (k : nat) : Q := n / inject_Z (1024 ^ Z.of_nat k).

(** The number that a count is, before any conversion. *)
Definition number_value (bytes : number) : Q :=
  match bytes with
  | Int n => inject_Z n
  | Float x => x
  end.

(** The loop of [format_bytes] as it runs on a float: nothing can raise. *)
Fixpoint format_float_from (units : list string) (x : Q) : string :=
  match units with
  | [] => Py.format_fixed 1 x ++ "PB"
  | unit :: units' =>
      if Qlt_le_dec x 1024 then Py.format_fixed 1 x ++ unit
      else format_float_from units' (x / 1024)
  end.

Definition format_float (x : Q) : string :=
  format_float_from ["B"; "KB"; "MB"; "GB"; "TB"] x.

(** [format_bytes] returns a text that starts with a number of
    [[0, 1024)]. *)
Definition leading_in_range (bytes : number) : Prop :=
  exists (s : string) (v : Q),
    format_bytes bytes = Return s
    /\ leading_value s = Some v /\ 0 <= v /\ v < 1024.

(** [l] can be obtained from [full] by dropping elements. *)
Fixpoint is_subsequence (l full : list string) : bool :=
  match l, full with
  | [], _ => true
  | _ :: _, [] => false
  | x :: l', y :: full' =>
      if String.eqb x y then is_subsequence l' full'
      else is_subsequence l full'
  end.

(** The concatenation of a list of texts. *)
Definition concat_all (l : list string) : string := String.concat "" l.

(* ------------------------------------------------------------------ *)
(** * The tools advertised

    [handle_list_tools]: each tool with its name, its description and the
    properties of its [inputSchema] (every schema is an object with no
    required key). *)

Inductive SchemaDefault :=
| DefaultInt (n : Z)
| DefaultStr (s : string).

Record SchemaProperty := {
  prop_key : string;
  prop_type : string;
  prop_description : string;
  prop_enum : option (list string);
  prop_default : SchemaDefault }.

Record Tool := {
  tool_name : string;
  tool_description : string;
  tool_properties : list SchemaProperty;
  tool_required : list string }.

Definition handle_list_tools : list Tool :=
  [ {| tool_name := "get_system_status";
       tool_description :=
         "Get current macOS system status including CPU, memory, and disk usage";
       tool_properties := [];
       tool_required := [] |};
    {| tool_name := "get_top_processes";
       tool_description := "Get the top processes by CPU or memory usage";
       tool_properties :=
         [ {| prop_key := "limit";
              prop_type := "integer";
              prop_description := "Number of processes to show (default: 10)";
              prop_enum := None;
              prop_default := DefaultInt 10 |};
           {| prop_key := "sort_by";
              prop_type := "string";
              prop_description := "Sort by 'cpu' or 'memory' (default: 'cpu')";
              prop_enum := Some ["cpu"; "memory"];
              prop_default := DefaultStr "cpu" |} ];
       tool_required := [] |};
    {| tool_name := "get_network_stats";
       tool_description :=
         "Get network statistics including data transfer and active interfaces";
       tool_properties := [];
       tool_required := [] |};
    {| tool_name := "get_cpu_details";
       tool_description :=
         "Get detailed CPU information including per-core usage and frequency";
       tool_properties := [];
       tool_required := [] |};
    {| tool_name := "check_alerts";
       tool_description :=
         "Check system metrics and report any alerts for high resource usage";
       tool_properties := [];
       tool_required := [] |} ].

(** The default that a tool's schema gives for a key. *)
Definition schema_default (t : Tool) (key : string) : option SchemaDefault :=
  option_map prop_default
    (find (fun p => String.eqb (prop_key p) key) (tool_properties t)).

(* ------------------------------------------------------------------ *)
(** * More definitions used to state properties *)

(** The readings [os] with another table of interface addresses. *)
Definition with_net_if_addrs (os : psutil)
    (addrs : list (string * list snicaddr.t)) : psutil :=
  {| cpu_percent := cpu_percent os;
     cpu_percent_percpu := cpu_percent_percpu os;
     cpu_count := cpu_count os;
     cpu_count_physical := cpu_count_physical os;
     getloadavg := getloadavg os;
     cpu_freq := cpu_freq os;
     virtual_memory := virtual_memory os;
     swap_memory := swap_memory os;
     disk_usage := disk_usage os;
     boot_time := boot_time os;
     datetime_now := datetime_now os;
     process_iter := process_iter os;
     net_io_counters := net_io_counters os;
     net_if_addrs := addrs |}.

(** The readings [os] with other network counters, or with none. *)
Definition with_net_io_counters (os : psutil) (stats : option snetio.t)
  : psutil :=
  {| cpu_percent := cpu_percent os;
     cpu_percent_percpu := cpu_percent_percpu os;
     cpu_count := cpu_count os;
     cpu_count_physical := cpu_count_physical os;
     getloadavg := getloadavg os;
     cpu_freq := cpu_freq os;
     virtual_memory := virtual_memory os;
     swap_memory := swap_memory os;
     disk_usage := disk_usage os;
     boot_time := boot_time os;
     datetime_now := datetime_now os;
     process_iter := process_iter os;
     net_io_counters := stats;
     net_if_addrs := net_if_addrs os |}.

(** A size that converts to a float without overflow. *)
Definition fits_float (n : Z) : Prop := (Z.abs n < 2 ^ 1023)%Z.

(** The sizes that the status report prints all convert. *)
Definition sizes_fit (os : psutil) : Prop :=
  fits_float (svmem.used (virtual_memory os))
  /\ fits_float (svmem.total (virtual_memory os))
  /\ fits_float (sswap.used (swap_memory os))
  /\ fits_float (sswap.total (swap_memory os))
  /\ fits_float (svmem.available (virtual_memory os))
  /\ fits_float (sdiskusage.used (disk_usage os))
  /\ fits_float (sdiskusage.total (disk_usage os))
  /\ fits_float (sdiskusage.free (disk_usage os)).

(** A [str]. *)
Definition is_str (v : pyobj) : bool :=
  match v with PyStr _ => true | _ => false end.

(** A value that can bound a slice: an [int], a [bool] or [None]. *)
Definition bounds_slice (v : pyobj) : bool :=
  match v with
  | PyInt _ | PyBool _ | PyNone => true
  | _ => false
  end.

(** [arguments.get(key, default) if arguments else default]. *)
Definition argument (arguments : option dict) (key : string)
    (default : pyobj) : pyobj :=
  match arguments with
  | Some a => dict_get a key default
  | None => default
  end.

(** The readings [os] with another list of per-core percentages. *)
Definition with_cpu_percent_percpu (os : psutil) (cores : list Q) : psutil :=
  {| cpu_percent := cpu_percent os;
     cpu_percent_percpu := cores;
     cpu_count := cpu_count os;
     cpu_count_physical := cpu_count_physical os;
     getloadavg := getloadavg os;
     cpu_freq := cpu_freq os;
     virtual_memory := virtual_memory os;
     swap_memory := swap_memory os;
     disk_usage := disk_usage os;
     boot_time := boot_time os;
     datetime_now := datetime_now os;
     process_iter := process_iter os;
     net_io_counters := net_io_counters os;
     net_if_addrs := net_if_addrs os |}.

(** An address of the IPv4 family. *)
Definition is_ipv4 (addr : snicaddr.t) : bool := (snicaddr.family addr =? 2)%Z.

(** The table of interfaces without the addresses of other families and
    without the interfaces that are left with no address. *)
Definition ipv4_only (addrs : list (string * list snicaddr.t))
  : list (string * list snicaddr.t) :=
  filter (fun '(_, l) => negb (Nat.eqb (List.length l) 0))
    (map (fun '(interface, l) => (interface, filter is_ipv4 l)) addrs).

(** The lines of the cores, numbered 0, 1, 2, ... in the order given. *)
Definition core_lines (repr_float : Q -> string) (cores : list Q)
  : list string :=
  map (fun '(i, percent) =>
         "• Core " ++ Py.str_int (Z.of_nat i) ++ ": " ++ repr_float percent
           ++ "%" ++ nl)
    (combine (seq 0 (List.length cores)) cores).

(** The reading that belongs to a domain of the alert rule. *)
Definition domain_reading (os : psutil) (domain : string) : option Q :=
  if String.eqb domain "CPU" then Some (cpu_percent os)
  else if String.eqb domain "Memory" then Some (svmem.percent (virtual_memory os))
  else if String.eqb domain "Disk" then Some (sdiskusage.percent (disk_usage os))
  else if String.eqb domain "Swap" then Some (sswap.percent (swap_memory os))
  else None.

(** The text of the three branches of [format_uptime]. *)
Definition uptime_text (d h m : Z) : string :=
  if (0 <? d)%Z then
    Py.str_int d ++ "d " ++ Py.str_int h ++ "h " ++ Py.str_int m ++ "m"
  else if (0 <? h)%Z then Py.str_int h ++ "h " ++ Py.str_int m ++ "m"
  else Py.str_int m ++ "m".

(* ------------------------------------------------------------------ *)
(** * Alerts *)

Section AlertFacts.
Variable repr_float : Q -> string.

Local Ltac thresholds :=
  repeat match goal with
         | |- context [Qlt_le_dec ?a ?b] => destruct (Qlt_le_dec a b)
         end;
  try reflexivity; try (exfalso; lra).

Lemma check_system_alerts_refines (os : psutil) :
  map domain_and_level (check_system_alerts repr_float os)
  = spec_evaluate_alerts os.
Proof.
  unfold check_system_alerts, spec_evaluate_alerts, spec_threshold_table,
    spec_severity, domain_and_level.
  cbn [flat_map].
  thresholds.
Qed.

End AlertFacts.

(** C1: the alerts of a sample are, domain by domain in the order CPU,
    Memory, Disk, Swap, what the threshold table says (high above the high
    threshold, else medium above the medium threshold, else nothing); the
    sample 85/50/50/10 gives the single alert CPU/medium and the sample
    95/97/96/80 gives CPU/high, Memory/high, Disk/high, Swap/medium. *)
Theorem evaluate_alerts_table (repr_float : Q -> string) :
  (forall os : psutil,
      map domain_and_level (check_system_alerts repr_float os)
      = spec_evaluate_alerts os)
  /\ map domain_and_level (check_system_alerts repr_float (sample 85 50 50 10))
     = [("CPU", medium)]
  /\ map domain_and_level (check_system_alerts repr_float (sample 95 97 96 80))
     = [("CPU", high); ("Memory", high); ("Disk", high); ("Swap", medium)].
Proof.
  split; [apply check_system_alerts_refines|].
  split; reflexivity.
Qed.

(** C7: an alert of the Swap domain is always of severity medium, and the
    Swap domain alerts (with that severity) whenever its percentage is
    above 75, however far above. *)
Theorem swap_alert_is_medium (repr_float : Q -> string) (os : psutil) :
  (forall a : Alert,
      In a (check_system_alerts repr_float os) -> type a = "Swap" ->
      level a = medium /\ 75 < sswap.percent (swap_memory os))
  /\ (75 < sswap.percent (swap_memory os) ->
      exists a : Alert,
        In a (check_system_alerts repr_float os)
        /\ type a = "Swap" /\ level a = medium
        /\ value a = sswap.percent (swap_memory os)).
Proof.
  split.
  - intros a Hin Hty. unfold check_system_alerts in Hin.
    repeat match type of Hin with
           | context [Qlt_le_dec ?x ?y] => destruct (Qlt_le_dec x y)
           end;
      cbn [app In] in Hin;
      repeat match type of Hin with
             | _ \/ _ => destruct Hin as [Hin | Hin]
             | False => contradiction
             | _ = a => subst a; cbn in Hty; try discriminate Hty
             end;
      (split; [reflexivity | assumption]).
  - intros Hswap. unfold check_system_alerts.
    destruct (Qlt_le_dec 75 (sswap.percent (swap_memory os))) as [_ | Hle];
      [| exfalso; lra].
    eexists. split.
    + apply in_or_app. right. left. reflexivity.
    + cbn. repeat split; reflexivity.
Qed.

Lemma swap_alert_is_medium_witness :
  let a := {| level := medium; type := "Swap";
              message := "Swap usage is 100.0%"; value := 100 |} in
  let alerts := check_system_alerts (fun _ => "100.0") (sample 0 0 0 100) in
  In a alerts /\ type a = "Swap"
  /\ (level a = medium /\ 75 < 100)
  /\ (exists b : Alert, In b alerts /\ type b = "Swap" /\ level b = medium
                        /\ value b = 100).
Proof.
  cbv zeta.
  split; [left; reflexivity|].
  split; [reflexivity|].
  split.
  - apply (proj1 (swap_alert_is_medium (fun _ => "100.0") (sample 0 0 0 100))).
    + left; reflexivity.
    + reflexivity.
  - apply (proj2 (swap_alert_is_medium (fun _ => "100.0") (sample 0 0 0 100))).
    reflexivity.
Defined.

(* ------------------------------------------------------------------ *)
(** * Texts built by repeated [+=] *)

Lemma append_assoc (a b c : string) : (a ++ b) ++ c = a ++ (b ++ c).
Proof. induction a as [|ch a IH]; cbn; [reflexivity | now rewrite IH]. Qed.

Lemma append_nil_r (a : string) : a ++ "" = a.
Proof. induction a as [|ch a IH]; cbn; [reflexivity | now rewrite IH]. Qed.

Lemma length_append (a b : string) :
  length (a ++ b) = (length a + length b)%nat.
Proof. induction a as [|ch a IH]; cbn; [reflexivity | now rewrite IH]. Qed.

Lemma concat_all_cons (s : string) (l : list string) :
  concat_all (s :: l) = s ++ concat_all l.
Proof.
  unfold concat_all. destruct l as [|s' l]; cbn.
  - now rewrite append_nil_r.
  - reflexivity.
Qed.

(** A loop [for x in l: result += f(x)] appends the pieces in order. *)
Lemma fold_left_append {A : Type} (f : A -> string) (l : list A) :
  forall init : string,
    fold_left (fun result x => result ++ f x) l init
    = init ++ concat_all (map f l).
Proof.
  induction l as [|x l IH]; intros init.
  - cbn. now rewrite append_nil_r.
  - cbn [fold_left map]. rewrite IH, concat_all_cons.
    now rewrite append_assoc.
Qed.

(** The same for a loop over [enumerate]. *)
Lemma fold_left_append_pairs {A B : Type} (f : A -> B -> string)
    (l : list (A * B)) :
  forall init : string,
    fold_left (fun result '(i, x) => result ++ f i x) l init
    = init ++ concat_all (map (fun '(i, x) => f i x) l).
Proof.
  induction l as [|[i x] l IH]; intros init.
  - cbn. now rewrite append_nil_r.
  - cbn [fold_left map]. rewrite IH, concat_all_cons.
    now rewrite append_assoc.
Qed.

(* ------------------------------------------------------------------ *)
(** * The dispatcher *)

Section DispatchFacts.
Variable repr_float : Q -> string.
Variable str_upper : string -> string.
Variable strftime : Q -> string.

Lemma alerts_text_nonempty (alerts : list Alert) :
  alerts <> [] ->
  alerts_text alerts
  = "⚠️ **System Alerts**" ++ nl ++ nl ++ concat_all (map alert_line alerts).
Proof.
  destruct alerts as [|a alerts]; [congruence|]. intros _.
  unfold alerts_text. rewrite fold_left_append.
  now rewrite !append_assoc.
Qed.

Lemma alert_domains_in_table_order (os : psutil) :
  is_subsequence (map type (check_system_alerts repr_float os))
    ["CPU"; "Memory"; "Disk"; "Swap"] = true.
Proof.
  unfold check_system_alerts.
  repeat match goal with
         | |- context [Qlt_le_dec ?a ?b] => destruct (Qlt_le_dec a b)
         end; reflexivity.
Qed.

Lemma call_unknown (os : psutil) (name : string) (arguments : option dict) :
  ~ In name tool_names ->
  handle_call_tool repr_float str_upper strftime os name arguments
  = Raise (ValueError ("Unknown tool: " ++ name)).
Proof.
  intros Hout. unfold handle_call_tool.
  repeat match goal with
         | |- context [String.eqb name ?s] =>
             destruct (String.eqb_spec name s) as [-> | _];
             [exfalso; apply Hout; cbn; tauto |]
         end.
  reflexivity.
Qed.

End DispatchFacts.

(** C6: the [check_alerts] tool answers with the text of the alerts of the
    sample; for no alert that text is the fixed sentence, and otherwise it
    is the heading followed by one line per alert, in the order of the
    alerts, each line made of the severity mark, the alert's domain and its
    message; the domains come in the order CPU, Memory, Disk, Swap. *)
Theorem check_alerts_text (repr_float : Q -> string)
    (str_upper : string -> string) (strftime : Q -> string)
    (os : psutil) (arguments : option dict) :
  let alerts := check_system_alerts repr_float os in
  handle_call_tool repr_float str_upper strftime os "check_alerts" arguments
  = Return [ {| content_type := "text"; text := alerts_text alerts |} ]
  /\ alerts_text [] = "✅ All systems normal - no alerts"
  /\ (forall l : list Alert,
        l <> [] ->
        alerts_text l
        = "⚠️ **System Alerts**" ++ nl ++ nl ++ concat_all (map alert_line l)
        /\ List.length (map alert_line l) = List.length l)
  /\ (forall a : Alert,
        alert_line a
        = (match level a with high => "🔴" | medium => "🟡" end)
            ++ " **" ++ type a ++ "**: " ++ message a ++ nl)
  /\ is_subsequence (map type alerts) ["CPU"; "Memory"; "Disk"; "Swap"] = true.
Proof.
  cbv zeta. split; [reflexivity|]. split; [reflexivity|].
  split.
  - intros l Hl. split; [now apply alerts_text_nonempty | apply length_map].
  - split; [reflexivity | apply alert_domains_in_table_order].
Qed.

Lemma check_alerts_text_witness :
  alerts_text
    [ {| level := high; type := "CPU"; message := "CPU usage is 95.0%";
         value := 95 |} ]
  = "⚠️ **System Alerts**" ++ nl ++ nl
      ++ concat_all [ "🔴 **CPU**: CPU usage is 95.0%" ++ nl ]
  /\ List.length [ "🔴 **CPU**: CPU usage is 95.0%" ++ nl ] = 1%nat.
Proof.
  apply (proj1 (proj2 (proj2
           (check_alerts_text (fun _ => "") (fun s => s) (fun _ => "")
              (sample 0 0 0 0) None)))
           [ {| level := high; type := "CPU";
                message := "CPU usage is 95.0%"; value := 95 |} ]).
  discriminate.
Defined.

(* ------------------------------------------------------------------ *)
(** * The sort of the process list *)

Section SortFacts.
Context {A : Type} (key : A -> Q).

Lemma insert_desc_perm (x : A) (l : list A) :
  Permutation (x :: l) (Py.insert_desc key x l).
Proof.
  induction l as [|y l IH]; cbn.
  - apply Permutation_refl.
  - destruct (Qlt_le_dec (key x) (key y)).
    + eapply perm_trans; [apply perm_swap|]. now apply perm_skip.
    + apply Permutation_refl.
Qed.

Lemma sort_desc_perm (l : list A) : Permutation l (Py.sort_desc key l).
Proof.
  induction l as [|x l IH]; cbn.
  - apply perm_nil.
  - eapply perm_trans; [apply perm_skip, IH | apply insert_desc_perm].
Qed.

Lemma insert_desc_Forall (P : A -> Prop) (x : A) (l : list A) :
  P x -> Forall P l -> Forall P (Py.insert_desc key x l).
Proof.
  intros Hx Hl. induction Hl as [|y l Hy Hl IH]; cbn.
  - constructor; [assumption | constructor].
  - destruct (Qlt_le_dec (key x) (key y)).
    + constructor; assumption.
    + constructor; [assumption | constructor; assumption].
Qed.

Lemma insert_desc_sorted (x : A) (l : list A) :
  StronglySorted (fun a b => key b <= key a) l ->
  StronglySorted (fun a b => key b <= key a) (Py.insert_desc key x l).
Proof.
  induction 1 as [|y l Hs IH Hy]; cbn.
  - constructor; constructor.
  - destruct (Qlt_le_dec (key x) (key y)) as [Hlt | Hle].
    + constructor; [assumption|].
      apply insert_desc_Forall; [now apply Qlt_le_weak | assumption].
    + constructor; [constructor; assumption|].
      constructor; [assumption|].
      eapply Forall_impl; [|exact Hy]. intros b Hb. cbn in Hb.
      now apply Qle_trans with (key y).
Qed.

Lemma sort_desc_sorted (l : list A) :
  StronglySorted (fun a b => key b <= key a) (Py.sort_desc key l).
Proof.
  induction l as [|x l IH]; cbn.
  - constructor.
  - now apply insert_desc_sorted.
Qed.

(** Insertion moves [x] only past elements with a greater key, so the
    elements of any one key keep their order. *)
Lemma insert_desc_filter (k : Q) (x : A) (l : list A) :
  filter (fun p => Qeq_bool (key p) k) (Py.insert_desc key x l)
  = filter (fun p => Qeq_bool (key p) k) (x :: l).
Proof.
  induction l as [|y l IH]; [reflexivity|].
  cbn [Py.insert_desc]. destruct (Qlt_le_dec (key x) (key y)) as [Hlt | Hle];
    [|reflexivity].
  cbn [filter] in *. rewrite IH.
  destruct (Qeq_bool (key x) k) eqn:Ex; [|reflexivity].
  destruct (Qeq_bool (key y) k) eqn:Ey; [|reflexivity].
  apply Qeq_bool_iff in Ex, Ey. exfalso.
  apply (Qlt_irrefl (key y)). now rewrite Ey, <- Ex at 1.
Qed.

Lemma sort_desc_stable (k : Q) (l : list A) :
  filter (fun p => Qeq_bool (key p) k) (Py.sort_desc key l)
  = filter (fun p => Qeq_bool (key p) k) l.
Proof.
  induction l as [|x l IH]; [reflexivity|].
  cbn [Py.sort_desc]. rewrite insert_desc_filter.
  cbn [filter]. now rewrite IH.
Qed.

End SortFacts.

Lemma enumerate_seq {A : Type} (l : list A) :
  forall n : nat,
    Py.enumerate (Z.of_nat n) l
    = map (fun '(i, x) => (Z.of_nat i, x)) (combine (seq n (List.length l)) l).
Proof.
  induction l as [|x l IH]; intros n; [reflexivity|].
  cbn [Py.enumerate List.length seq combine map]. f_equal.
  replace (Z.of_nat n + 1)%Z with (Z.of_nat (S n)) by lia.
  apply IH.
Qed.

Section ProcessReportFacts.
Variable str_upper : string -> string.

(** The loop over the cut list, as a concatenation. *)
Lemma top_processes_report_eq (processes : list Process) (limit : Z)
    (sort_by : string) :
  top_processes_report str_upper processes limit sort_by
  = processes_header str_upper limit sort_by
      ++ concat_all
           (numbered_entries
              (Py.slice_to limit
                 (Py.sort_desc (selected_fraction sort_by) processes))).
Proof.
  unfold top_processes_report, numbered_entries, selected_fraction.
  set (sorted := if String.eqb sort_by "memory" then _ else _).
  replace (Py.sort_desc _ processes) with sorted
    by (subst sorted; destruct (String.eqb sort_by "memory"); reflexivity).
  change 1%Z with (Z.of_nat 1). rewrite enumerate_seq.
  rewrite (fold_left_append_pairs process_lines).
  rewrite map_map. do 2 f_equal.
  apply map_ext. intros [i proc]. reflexivity.
Qed.

End ProcessReportFacts.



(* ------------------------------------------------------------------ *)
(** * Rounding and fixed notation *)

Lemma round_half_even_proper (x y : Q) :
  x == y -> Py.round_half_even x = Py.round_half_even y.
Proof.
  intros H. unfold Py.round_half_even.
  rewrite (Qfloor_comp x y H).
  assert (E : x - inject_Z (Qfloor y) == y - inject_Z (Qfloor y))
    by now rewrite H.
  now rewrite (Qcompare_comp _ _ E _ _ (Qeq_refl (1 # 2))).
Qed.

Lemma format_fixed_proper (d : nat) (x y : Q) :
  x == y -> Py.format_fixed d x = Py.format_fixed d y.
Proof.
  intros H. unfold Py.format_fixed.
  rewrite (round_half_even_proper (Qabs x * _) (Qabs y * _))
    by now rewrite H.
  destruct (Qlt_le_dec x 0), (Qlt_le_dec y 0);
    try reflexivity; exfalso; lra.
Qed.

Lemma format_float_from_lt (unit : string) (units : list string) (b : Q) :
  b < 1024 ->
  format_float_from (unit :: units) b = Py.format_fixed 1 b ++ unit.
Proof.
  intros H. cbn [format_float_from].
  destruct (Qlt_le_dec b 1024); [reflexivity | exfalso; lra].
Qed.

Lemma format_float_from_ge (unit : string) (units : list string) (b : Q) :
  1024 <= b ->
  format_float_from (unit :: units) b = format_float_from units (b / 1024).
Proof.
  intros H. cbn [format_float_from].
  destruct (Qlt_le_dec b 1024); [exfalso; lra | reflexivity].
Qed.

(** Division by the constant 1024, as a product, for linear arithmetic. *)
Local Ltac by_1024 :=
  repeat match goal with
         | |- context [?x / 1024] => change (x / 1024) with (x * (1 # 1024))
         | H : context [?x / 1024] |- _ =>
             change (x / 1024) with (x * (1 # 1024)) in H
         end.

Local Ltac scale_step :=
  first
    [ rewrite format_float_from_ge by (by_1024; lra)
    | rewrite format_float_from_lt by (by_1024; lra) ].

Lemma format_float_scaled (n : Q) (k : nat) :
  (k <= 5)%nat ->
  (k = 0%nat \/ inject_Z (1024 ^ Z.of_nat k) <= n) ->
  (k = 5%nat \/ n < inject_Z (1024 ^ Z.of_nat (k + 1))) ->
  format_float n = Py.format_fixed 1 (scaled n k) ++ nth k byte_units "".
Proof.
  intros Hk Hlo Hhi. unfold scaled.
  assert (Hcase : (k = 0 \/ k = 1 \/ k = 2 \/ k = 3 \/ k = 4 \/ k = 5)%nat)
    by lia.
  unfold format_float.
  repeat destruct Hcase as [Hcase | Hcase]; subst k;
    (destruct Hlo as [Hlo | Hlo]; [try discriminate Hlo | try discriminate]);
    (destruct Hhi as [Hhi | Hhi]; [try discriminate Hhi | try discriminate]);
    cbn [nth byte_units];
    repeat match goal with
           | H : context [inject_Z (1024 ^ Z.of_nat ?j)] |- _ =>
               let c := eval vm_compute in (inject_Z (1024 ^ Z.of_nat j)) in
               change (inject_Z (1024 ^ Z.of_nat j)) with c in H
           | |- context [inject_Z (1024 ^ Z.of_nat ?j)] =>
               let c := eval vm_compute in (inject_Z (1024 ^ Z.of_nat j)) in
               change (inject_Z (1024 ^ Z.of_nat j)) with c
           end;
    repeat scale_step;
    cbn [format_float_from];
    f_equal; apply format_fixed_proper; field.
Qed.

(* ------------------------------------------------------------------ *)
(** * Decimal texts and the number read back from them *)

Lemma string_of_uint_empty (d : Decimal.uint) :
  NilEmpty.string_of_uint d = "" -> d = Decimal.Nil.
Proof. destruct d; cbn; intros H; [reflexivity | discriminate H ..]. Qed.

Lemma str_int_nonneg (a : Z) :
  (0 <= a)%Z ->
  exists d : Decimal.uint,
    Py.str_int a = NilEmpty.string_of_uint d
    /\ Z.of_uint d = a /\ d <> Decimal.Nil.
Proof.
  intros Ha. unfold Py.str_int. destruct a as [|p|p]; [| |lia].
  - exists Decimal.zero. repeat split; discriminate.
  - exists (Pos.to_uint p). split; [reflexivity|]. split.
    + unfold Z.of_uint. now rewrite DecimalPos.Unsigned.of_to.
    + apply DecimalPos.Unsigned.to_uint_nonnil.
Qed.

Lemma str_int_digit (b : Z) :
  (0 <= b < 10)%Z ->
  exists f : Decimal.uint,
    Py.str_int b = NilEmpty.string_of_uint f
    /\ Z.of_uint f = b /\ length (NilEmpty.string_of_uint f) = 1%nat.
Proof.
  intros Hb.
  assert (H : (b = 0 \/ b = 1 \/ b = 2 \/ b = 3 \/ b = 4 \/ b = 5 \/ b = 6
               \/ b = 7 \/ b = 8 \/ b = 9)%Z) by lia.
  repeat destruct H as [H | H]; subst b;
    eexists; (split; [reflexivity|]); split; reflexivity.
Qed.

Lemma span_digits_uint (d : Decimal.uint) (rest : string) :
  span_digits rest = ("", rest) ->
  span_digits (NilEmpty.string_of_uint d ++ rest)
  = (NilEmpty.string_of_uint d, rest).
Proof.
  intros H. induction d; cbn; rewrite ?IHd; [assumption | reflexivity ..].
Qed.

Lemma leading_value_unsigned (d : Decimal.uint) (rest : string) :
  d <> Decimal.Nil ->
  leading_value (NilEmpty.string_of_uint d ++ rest)
  = unsigned_value (NilEmpty.string_of_uint d ++ rest).
Proof. destruct d; [congruence | reflexivity ..]. Qed.

Lemma unsigned_value_print (d f : Decimal.uint) (u : string) :
  d <> Decimal.Nil -> f <> Decimal.Nil -> span_digits u = ("", u) ->
  unsigned_value
    (NilEmpty.string_of_uint d ++ "." ++ NilEmpty.string_of_uint f ++ u)
  = Some (inject_Z (Z.of_uint d)
          + inject_Z (Z.of_uint f)
            / inject_Z (10 ^ Z.of_nat (length (NilEmpty.string_of_uint f)))).
Proof.
  intros Hd Hf Hu. unfold unsigned_value.
  rewrite span_digits_uint by reflexivity.
  destruct (NilEmpty.string_of_uint d) as [|c ip] eqn:Ed;
    [now apply string_of_uint_empty in Ed|].
  cbn [append]. rewrite span_digits_uint by assumption.
  cbv beta iota. rewrite <- Ed, !NilEmpty.usu.
  destruct (NilEmpty.string_of_uint f) as [|c' fp] eqn:Ef;
    [now apply string_of_uint_empty in Ef|].
  cbv beta iota. now rewrite <- Ef, NilEmpty.usu.
Qed.

(** What is read back from a number printed with one decimal. *)
Lemma leading_value_one_decimal (a b : Z) (u : string) :
  (0 <= a)%Z -> (0 <= b < 10)%Z -> span_digits u = ("", u) ->
  leading_value (Py.str_int a ++ "." ++ Py.str_int b ++ u)
  = Some (inject_Z a + inject_Z b / 10).
Proof.
  intros Ha Hb Hu.
  destruct (str_int_nonneg a Ha) as (d & -> & <- & Hd).
  destruct (str_int_digit b Hb) as (f & -> & <- & Hlen).
  rewrite leading_value_unsigned by assumption.
  rewrite unsigned_value_print; try assumption.
  - now rewrite Hlen.
  - intros ->. discriminate Hlen.
Qed.

(* ------------------------------------------------------------------ *)
(** * Bounds of the rounding *)

Lemma inject_Z_pos (d : Z) : (0 < d)%Z -> 0 < inject_Z d.
Proof. intros H. change 0 with (inject_Z 0). now rewrite <- Zlt_Qlt. Qed.

Lemma Qfloor_lt_int (q : Q) (N : Z) : q < inject_Z N -> (Qfloor q < N)%Z.
Proof.
  intros H. rewrite Zlt_Qlt.
  apply Qle_lt_trans with q; [apply Qfloor_le | assumption].
Qed.

Lemma Qfloor_nonneg (q : Q) : 0 <= q -> (0 <= Qfloor q)%Z.
Proof. intros H. apply (Qfloor_resp_le 0 q) in H. exact H. Qed.

Lemma round_half_even_floor (q : Q) :
  (Qfloor q <= Py.round_half_even q <= Qfloor q + 1)%Z.
Proof.
  unfold Py.round_half_even.
  destruct (Qcompare _ _); [destruct (Z.even _) | |]; lia.
Qed.

Lemma round_half_even_nonneg (q : Q) :
  0 <= q -> (0 <= Py.round_half_even q)%Z.
Proof.
  intros H. pose proof (Qfloor_nonneg q H).
  pose proof (round_half_even_floor q). lia.
Qed.

Lemma round_half_even_le (q : Q) (N : Z) :
  q < inject_Z N -> (Py.round_half_even q <= N)%Z.
Proof.
  intros H. pose proof (Qfloor_lt_int q N H).
  pose proof (round_half_even_floor q). lia.
Qed.

Lemma round_half_even_below_half (q : Q) (N : Z) :
  q < inject_Z N - (1 # 2) -> (Py.round_half_even q < N)%Z.
Proof.
  intros H.
  assert (Hf : (Qfloor q < N)%Z) by (apply Qfloor_lt_int; lra).
  destruct (Z.eq_dec (Qfloor q) (N - 1)) as [E | E].
  - unfold Py.round_half_even. rewrite E.
    assert (Hlt : q - inject_Z (N - 1) < 1 # 2).
    { assert (E1 : inject_Z (N - 1) == inject_Z N - 1)
        by (unfold Z.sub; now rewrite inject_Z_plus).
      rewrite E1. lra. }
    destruct (Qcompare_spec (q - inject_Z (N - 1)) (1 # 2)) as [H1 | H1 | H1];
      [exfalso; lra | lia | exfalso; lra].
  - pose proof (round_half_even_floor q). lia.
Qed.

Lemma format_fixed_one_decimal (x : Q) :
  0 <= x ->
  Py.format_fixed 1 x
  = Py.str_int (Py.round_half_even (x * 10) / 10) ++ "."
      ++ Py.str_int (Py.round_half_even (x * 10) mod 10).
Proof.
  intros Hx. unfold Py.format_fixed.
  destruct (Qlt_le_dec x 0) as [Hneg | _]; [exfalso; lra|].
  change (10 ^ Z.of_nat 1)%Z with 10%Z. change (inject_Z 10) with 10.
  rewrite (round_half_even_proper (Qabs x * 10) (x * 10))
    by now rewrite (Qabs_pos x Hx).
  reflexivity.
Qed.

(** The number printed by [format_fixed 1], read back. *)
Lemma leading_value_format_fixed (x : Q) (u : string) :
  0 <= x -> span_digits u = ("", u) ->
  exists v : Q,
    leading_value (Py.format_fixed 1 x ++ u) = Some v
    /\ v == inject_Z (Py.round_half_even (x * 10)) / 10.
Proof.
  intros Hx Hu. set (t := Py.round_half_even (x * 10)).
  assert (Ht : (0 <= t)%Z) by (apply round_half_even_nonneg; lra).
  exists (inject_Z (t / 10) + inject_Z (t mod 10) / 10). split.
  - rewrite format_fixed_one_decimal by assumption. fold t.
    rewrite !append_assoc.
    apply leading_value_one_decimal; [| |assumption].
    + now apply Z.div_pos.
    + now apply Z.mod_pos_bound.
  - rewrite (Z.div_mod t 10) at 3 by discriminate.
    rewrite inject_Z_plus, inject_Z_mult. change (inject_Z 10) with 10.
    field.
Qed.

(* ------------------------------------------------------------------ *)
(** * The byte counts *)

Local Ltac powers_of_1024 :=
  repeat match goal with
         | H : context [inject_Z (1024 ^ Z.of_nat ?j)] |- _ =>
             let c := eval vm_compute in (inject_Z (1024 ^ Z.of_nat j)) in
             change (inject_Z (1024 ^ Z.of_nat j)) with c in H
         | |- context [inject_Z (1024 ^ Z.of_nat ?j)] =>
             let c := eval vm_compute in (inject_Z (1024 ^ Z.of_nat j)) in
             change (inject_Z (1024 ^ Z.of_nat j)) with c
         end.

(** The unit that the loop stops at. *)
Lemma unit_index (n : Q) :
  0 <= n -> n < inject_Z (1024 ^ Z.of_nat 6) ->
  exists k : nat,
    (k <= 5)%nat
    /\ (k = 0%nat \/ inject_Z (1024 ^ Z.of_nat k) <= n)
    /\ n < inject_Z (1024 ^ Z.of_nat (k + 1))
    /\ 0 <= scaled n k /\ scaled n k < 1024.
Proof.
  intros H0 H6. unfold scaled.
  destruct (Qlt_le_dec n (inject_Z (1024 ^ Z.of_nat 1))) as [H1 | H1];
    [exists 0%nat|
  destruct (Qlt_le_dec n (inject_Z (1024 ^ Z.of_nat 2))) as [H2 | H2];
    [exists 1%nat|
  destruct (Qlt_le_dec n (inject_Z (1024 ^ Z.of_nat 3))) as [H3 | H3];
    [exists 2%nat|
  destruct (Qlt_le_dec n (inject_Z (1024 ^ Z.of_nat 4))) as [H4 | H4];
    [exists 3%nat|
  destruct (Qlt_le_dec n (inject_Z (1024 ^ Z.of_nat 5))) as [H5 | H5];
    [exists 4%nat | exists 5%nat]]]]];
    (split; [lia|]); (split; [first [left; reflexivity | right; assumption]|]);
    (split; [assumption|]);
    cbn [Nat.add] in *; powers_of_1024;
    match goal with
    | |- 0 <= n / ?c /\ n / ?c < 1024 =>
        let r := eval vm_compute in (/ c) in
        change (n / c) with (n * r)
    end; split; lra.
Qed.

Lemma span_digits_unit (k : nat) :
  span_digits (nth k byte_units "") = ("", nth k byte_units "").
Proof. do 7 (destruct k as [|k]; [reflexivity|]). reflexivity. Qed.

Lemma unit_reached (n : Q) :
  0 <= n ->
  exists k : nat,
    (k <= 5)%nat
    /\ (k = 0%nat \/ inject_Z (1024 ^ Z.of_nat k) <= n)
    /\ (k = 5%nat \/ n < inject_Z (1024 ^ Z.of_nat (k + 1))).
Proof.
  intros Hn.
  destruct (Qlt_le_dec n (inject_Z (1024 ^ Z.of_nat 6))) as [H6 | H6].
  - destruct (unit_index n Hn H6) as (k & Hk & Hlo & Hhi & _).
    exists k. repeat split; [assumption .. | right; assumption].
  - exists 5%nat. repeat split; [lia | right | left; reflexivity].
    eapply Qle_trans; [|exact H6]. discriminate.
Qed.

Lemma scaled_nonneg (n : Q) (k : nat) : 0 <= n -> 0 <= scaled n k.
Proof.
  intros Hn. unfold scaled. apply Qle_shift_div_l.
  - apply inject_Z_pos. apply Z.pow_pos_nonneg; lia.
  - lra.
Qed.

(* ------------------------------------------------------------------ *)
(** * Floor division and remainder *)

Section FloorFacts.
Variable d : Z.
Hypothesis d_pos : (0 < d)%Z.

Lemma floordiv_bounds (x : Q) :
  inject_Z d * inject_Z (floordiv x d) <= x
  /\ x < inject_Z d * inject_Z (floordiv x d) + inject_Z d.
Proof.
  pose proof (inject_Z_pos d d_pos) as D_pos.
  assert (Hx : inject_Z d * (x / inject_Z d) == x)
    by (apply Qmult_div_r; intros E; rewrite E in D_pos; discriminate D_pos).
  unfold floordiv. split.
  - rewrite <- Hx at 2. apply Qmult_le_l; [exact D_pos | apply Qfloor_le].
  - pose proof (Qlt_floor (x / inject_Z d)) as Hlt.
    apply (proj2 (Qmult_lt_l _ _ _ D_pos)) in Hlt. rewrite Hx in Hlt.
    rewrite inject_Z_plus in Hlt.
    eapply Qlt_le_trans; [exact Hlt|]. change (inject_Z 1) with 1.
    rewrite Qmult_plus_distr_r, Qmult_1_r. apply Qle_refl.
Qed.

Lemma floordiv_unique (x : Q) (z : Z) :
  inject_Z d * inject_Z z <= x ->
  x < inject_Z d * inject_Z z + inject_Z d ->
  floordiv x d = z.
Proof.
  intros Hlo Hhi. destruct (floordiv_bounds x) as [Flo Fhi].
  pose proof (inject_Z_pos d d_pos) as D_pos.
  set (f := floordiv x d) in *.
  assert (H1 : inject_Z d * inject_Z f < inject_Z d * inject_Z (z + 1)).
  { rewrite inject_Z_plus, Qmult_plus_distr_r. change (inject_Z 1) with 1.
    rewrite Qmult_1_r. eapply Qle_lt_trans; eassumption. }
  assert (H2 : inject_Z d * inject_Z z < inject_Z d * inject_Z (f + 1)).
  { rewrite inject_Z_plus, Qmult_plus_distr_r. change (inject_Z 1) with 1.
    rewrite Qmult_1_r. eapply Qle_lt_trans; eassumption. }
  apply (proj1 (Qmult_lt_l _ _ _ D_pos)) in H1.
  apply (proj1 (Qmult_lt_l _ _ _ D_pos)) in H2.
  rewrite <- Zlt_Qlt in H1, H2. subst f. lia.
Qed.

Lemma floormod_bounds (x : Q) :
  0 <= floormod x d /\ floormod x d < inject_Z d.
Proof.
  destruct (floordiv_bounds x) as [Flo Fhi].
  unfold floormod. rewrite inject_Z_mult. split; lra.
Qed.

End FloorFacts.

(** Days, hours and minutes split the elapsed seconds, the seconds that
    remain being dropped. *)
Lemma uptime_split (e : Q) :
  let days := uptime_days e in
  let hours := uptime_hours e in
  let minutes := uptime_minutes e in
  (0 <= hours < 24)%Z /\ (0 <= minutes < 60)%Z
  /\ inject_Z (86400 * days + 3600 * hours + 60 * minutes) <= e
  /\ e < inject_Z (86400 * days + 3600 * hours + 60 * minutes) + 60.
Proof.
  cbv zeta. unfold uptime_days, uptime_hours, uptime_minutes.
  destruct (floordiv_bounds 86400 eq_refl e) as [Dlo Dhi].
  destruct (floordiv_bounds 3600 eq_refl (floormod e 86400)) as [Hlo Hhi].
  destruct (floordiv_bounds 60 eq_refl (floormod e 3600)) as [Mlo Mhi].
  destruct (floormod_bounds 86400 eq_refl e) as [R1lo R1hi].
  destruct (floormod_bounds 3600 eq_refl e) as [R2lo R2hi].
  set (dd := floordiv e 86400) in *.
  set (hh := floordiv (floormod e 86400) 3600) in *.
  set (mm := floordiv (floormod e 3600) 60) in *.
  assert (Eq : floordiv e 3600 = (24 * dd + hh)%Z).
  { apply floordiv_unique; [reflexivity | |];
      unfold floormod in Hlo, Hhi; fold dd in Hlo, Hhi;
      rewrite ?inject_Z_plus, ?inject_Z_mult in *;
      change (inject_Z 86400) with 86400 in *;
      change (inject_Z 3600) with 3600 in *;
      change (inject_Z 24) with 24; lra. }
  unfold floormod in *. fold dd in R1lo, R1hi, Hlo, Hhi.
  rewrite Eq in *.
  rewrite ?inject_Z_plus, ?inject_Z_mult, ?inject_Z_plus, ?inject_Z_mult in *.
  change (inject_Z 86400) with 86400 in *.
  change (inject_Z 3600) with 3600 in *.
  change (inject_Z 60) with 60 in *.
  change (inject_Z 24) with 24 in *.
  assert (Hh0 : -1 < inject_Z hh) by lra.
  assert (Hh1 : inject_Z hh < 24) by lra.
  assert (Hm0 : -1 < inject_Z mm) by lra.
  assert (Hm1 : inject_Z mm < 60) by lra.
  change (-1) with (inject_Z (-1)) in Hh0, Hm0.
  change 24 with (inject_Z 24) in Hh1.
  change 60 with (inject_Z 60) in Hm1.
  rewrite <- Zlt_Qlt in Hh0, Hh1, Hm0, Hm1.
  repeat split; try lia; lra.
Qed.

(* ------------------------------------------------------------------ *)
(** * The uptime text *)

Lemma floordiv_proper (x y : Q) (d : Z) : x == y -> floordiv x d = floordiv y d.
Proof. intros H. unfold floordiv. now rewrite H. Qed.

Lemma floormod_proper (x y : Q) (d : Z) : x == y -> floormod x d == floormod y d.
Proof.
  intros H. unfold floormod. now rewrite (floordiv_proper x y d H), H.
Qed.

Lemma format_uptime_elapsed (now boot_time e : Q) :
  now - boot_time == e -> format_uptime now boot_time = format_uptime e 0.
Proof.
  intros H.
  assert (E : now - boot_time == e - 0) by (rewrite H; ring).
  unfold format_uptime, uptime_days, uptime_hours, uptime_minutes.
  rewrite (floordiv_proper _ _ 86400 E).
  rewrite (floordiv_proper _ _ 3600 (floormod_proper _ _ 86400 E)).
  rewrite (floordiv_proper _ _ 60 (floormod_proper _ _ 3600 E)).
  reflexivity.
Qed.

Lemma uptime_days_sign (e : Q) :
  (0 <= e -> (0 <= uptime_days e)%Z) /\ (e <= 0 -> (uptime_days e <= 0)%Z).
Proof.
  unfold uptime_days.
  destruct (floordiv_bounds 86400 eq_refl e) as [Dlo Dhi].
  change (inject_Z 86400) with 86400 in *.
  split; intros He.
  - assert (H : inject_Z (-1) < inject_Z (floordiv e 86400))
      by (change (inject_Z (-1)) with (-1); lra).
    rewrite <- Zlt_Qlt in H. lia.
  - assert (H : inject_Z (floordiv e 86400) <= inject_Z 0)
      by (change (inject_Z 0) with 0; lra).
    rewrite <- Zle_Qle in H. exact H.
Qed.

Lemma minutes_text_zero (m : Z) :
  (0 <= m)%Z -> Py.str_int m ++ "m" = "0m" -> m = 0%Z.
Proof.
  intros Hm. destruct (str_int_nonneg m Hm) as (d & -> & <- & Hd).
  destruct d as [|d'| | | | | | | | |]; cbn; try discriminate.
  intros [= H]. destruct d'; cbn in H; try discriminate H.
  reflexivity.
Qed.

Lemma hours_text_long (h m : Z) :
  Py.str_int h ++ "h " ++ Py.str_int m ++ "m" <> "0m".
Proof.
  intros H. apply (f_equal length) in H.
  rewrite !length_append in H. cbn in H. lia.
Qed.

(** The text, by the branch taken. *)
Lemma format_uptime_cases (now boot_time : Q) :
  let days := uptime_days (now - boot_time) in
  let hours := uptime_hours (now - boot_time) in
  let minutes := uptime_minutes (now - boot_time) in
  ((0 < days)%Z ->
   format_uptime now boot_time
   = Py.str_int days ++ "d " ++ Py.str_int hours ++ "h "
       ++ Py.str_int minutes ++ "m")
  /\ ((days <= 0)%Z -> (0 < hours)%Z ->
      format_uptime now boot_time
      = Py.str_int hours ++ "h " ++ Py.str_int minutes ++ "m")
  /\ ((days <= 0)%Z -> hours = 0%Z ->
      format_uptime now boot_time = Py.str_int minutes ++ "m").
Proof.
  cbv zeta. unfold format_uptime.
  destruct (Z.ltb_spec 0 (uptime_days (now - boot_time)));
    destruct (Z.ltb_spec 0 (uptime_hours (now - boot_time)));
    repeat split; intros; first [reflexivity | lia].
Qed.

(** C2, refuted as stated: a boot instant 45 seconds after [now] gives an
    elapsed duration of -45 seconds, and the text is "23h 59m". *)
Lemma format_uptime_nonpositive_counterexample :
  0 - 45 <= 0
  /\ format_uptime 0 45 = "23h 59m"
  /\ format_uptime 0 45 <> "0m".
Proof. repeat split; discriminate. Qed.

(** C2, amended: for an elapsed duration that is negative or zero the text
    is "0m" exactly when the floor remainder of the duration by 86400
    seconds is below 60 seconds; so it is for the duration zero. *)
Theorem format_uptime_nonpositive (now boot_time : Q) :
  now - boot_time <= 0 ->
  (format_uptime now boot_time = "0m"
   <-> floormod (now - boot_time) 86400 < 60)
  /\ (now - boot_time == 0 -> format_uptime now boot_time = "0m").
Proof.
  intros He. set (e := now - boot_time) in *.
  destruct (format_uptime_cases now boot_time) as (_ & Chm & Cm).
  destruct (uptime_split e) as (Hh & Hm & Slo & Shi).
  pose proof (proj2 (uptime_days_sign e) He) as Hd.
  fold e in Chm, Cm. cbv zeta in *.
  assert (Hiff : format_uptime now boot_time = "0m"
                 <-> floormod e 86400 < 60).
  { split.
    - intros Htxt.
      destruct (Z.eq_dec (uptime_hours e) 0) as [Eh | Nh].
      + rewrite (Cm Hd Eh) in Htxt.
        apply minutes_text_zero in Htxt; [|lia].
        rewrite Eh, Htxt in Slo, Shi. unfold floormod. fold (uptime_days e).
        rewrite ?inject_Z_plus, ?inject_Z_mult in *.
        change (inject_Z 86400) with 86400 in *.
        change (inject_Z 3600) with 3600 in *.
        change (inject_Z 60) with 60 in *.
        change (inject_Z 0) with 0 in *. lra.
      + rewrite (Chm Hd ltac:(lia)) in Htxt.
        now apply hours_text_long in Htxt.
    - intros Hr.
      assert (Eh : uptime_hours e = 0%Z).
      { unfold uptime_hours. apply floordiv_unique; [reflexivity | |];
          destruct (floormod_bounds 86400 eq_refl e) as [R0 _];
          change (inject_Z 3600) with 3600; change (inject_Z 0) with 0; lra. }
      assert (Em : uptime_minutes e = 0%Z).
      { unfold floormod in Hr. fold (uptime_days e) in Hr.
        rewrite Eh in Slo, Shi.
        rewrite ?inject_Z_plus, ?inject_Z_mult in *.
        change (inject_Z 86400) with 86400 in *.
        change (inject_Z 3600) with 3600 in *.
        change (inject_Z 60) with 60 in *.
        change (inject_Z 0) with 0 in *.
        assert (H1 : inject_Z (uptime_minutes e) < inject_Z 1)
          by (change (inject_Z 1) with 1; lra).
        rewrite <- Zlt_Qlt in H1. lia. }
      rewrite (Cm Hd Eh), Em. reflexivity. }
  split; [exact Hiff|].
  intros E0. apply Hiff.
  assert (Ed : floordiv e 86400 = 0%Z).
  { apply floordiv_unique; [reflexivity | |];
      change (inject_Z 86400) with 86400; change (inject_Z 0) with 0; lra. }
  unfold floormod. rewrite Ed, E0. reflexivity.
Qed.

Lemma format_uptime_nonpositive_witness :
  (format_uptime 0 0 = "0m" <-> floormod (0 - 0) 86400 < 60)
  /\ (0 - 0 == 0 -> format_uptime 0 0 = "0m").
Proof.
  apply (format_uptime_nonpositive 0 0). discriminate.
Defined.

(** C4, refuted as stated: 90000 seconds are 1 day and 1 hour, and the
    text is "1d 1h 0m", not "1d 1h 30m"; and for -45 seconds, where days is
    -1 and hours is 23, the text has the hours although days is not 0. *)
Lemma format_uptime_units_counterexample :
  format_uptime 90000 0 = "1d 1h 0m"
  /\ format_uptime 90000 0 <> "1d 1h 30m"
  /\ uptime_days (0 - 45) = (-1)%Z
  /\ uptime_hours (0 - 45) = 23%Z
  /\ uptime_minutes (0 - 45) = 59%Z
  /\ format_uptime 0 45 = "23h 59m"
  /\ format_uptime 0 45 <> Py.str_int (uptime_minutes (0 - 45)) ++ "m".
Proof. repeat split; discriminate. Qed.

(** C4, amended: days, hours (0 to 23) and minutes (0 to 59) are the
    elapsed duration with the remaining seconds dropped; the text is
    "{d}d {h}h {m}m" when days > 0, "{h}h {m}m" when days <= 0 (days = 0 for
    a duration that is not negative) and hours > 0, and "{m}m" otherwise;
    91800 seconds give "1d 1h 30m", 90000 seconds "1d 1h 0m", 5400 seconds
    "1h 30m" and 45 seconds "0m". *)
Theorem format_uptime_units (now boot_time : Q) :
  let e := now - boot_time in
  let days := uptime_days e in
  let hours := uptime_hours e in
  let minutes := uptime_minutes e in
  ((0 <= hours < 24)%Z /\ (0 <= minutes < 60)%Z
   /\ inject_Z (86400 * days + 3600 * hours + 60 * minutes) <= e
   /\ e < inject_Z (86400 * days + 3600 * hours + 60 * minutes) + 60)
  /\ (0 <= e -> (0 <= days)%Z)
  /\ ((0 < days)%Z ->
      format_uptime now boot_time
      = Py.str_int days ++ "d " ++ Py.str_int hours ++ "h "
          ++ Py.str_int minutes ++ "m")
  /\ ((days <= 0)%Z -> (0 < hours)%Z ->
      format_uptime now boot_time
      = Py.str_int hours ++ "h " ++ Py.str_int minutes ++ "m")
  /\ ((days <= 0)%Z -> hours = 0%Z ->
      format_uptime now boot_time = Py.str_int minutes ++ "m")
  /\ (e == 91800 -> format_uptime now boot_time = "1d 1h 30m")
  /\ (e == 90000 -> format_uptime now boot_time = "1d 1h 0m")
  /\ (e == 5400 -> format_uptime now boot_time = "1h 30m")
  /\ (e == 45 -> format_uptime now boot_time = "0m").
Proof.
  cbv zeta.
  split; [apply uptime_split|].
  split; [apply uptime_days_sign|].
  destruct (format_uptime_cases now boot_time) as (C1 & C2 & C3).
  do 3 (split; [assumption|]).
  repeat split; intros E; rewrite (format_uptime_elapsed _ _ _ E);
    reflexivity.
Qed.

Lemma format_uptime_units_witness :
  format_uptime 100000 8200 = "1d 1h 30m"
  /\ format_uptime 100000 8200
     = Py.str_int 1 ++ "d " ++ Py.str_int 1 ++ "h " ++ Py.str_int 30 ++ "m".
Proof.
  pose proof (format_uptime_units 100000 8200) as H. cbv zeta in H.
  destruct H as (_ & _ & Hd & _ & _ & H91800 & _).
  split.
  - apply H91800. reflexivity.
  - apply Hd. reflexivity.
Defined.

(* ------------------------------------------------------------------ *)
(** * Further properties of the byte counts *)

Lemma round_half_even_close (q : Q) :
  q - (1 # 2) <= inject_Z (Py.round_half_even q)
  /\ inject_Z (Py.round_half_even q) <= q + (1 # 2).
Proof.
  pose proof (Qfloor_le q) as Hlo. pose proof (Qlt_floor q) as Hhi.
  rewrite inject_Z_plus in Hhi. change (inject_Z 1) with 1 in Hhi.
  unfold Py.round_half_even.
  destruct (Qcompare_spec (q - inject_Z (Qfloor q)) (1 # 2)) as [E | E | E];
    [destruct (Z.even (Qfloor q))| |];
    rewrite ?inject_Z_plus; change (inject_Z 1) with 1; split; lra.
Qed.

(* ------------------------------------------------------------------ *)
(** * Further properties of the uptime text *)

(** Days, hours and minutes are the only numbers that split a duration. *)
Lemma uptime_unique (e : Q) (d h m : Z) :
  (0 <= h < 24)%Z -> (0 <= m < 60)%Z ->
  inject_Z (86400 * d + 3600 * h + 60 * m) <= e ->
  e < inject_Z (86400 * d + 3600 * h + 60 * m) + 60 ->
  uptime_days e = d /\ uptime_hours e = h /\ uptime_minutes e = m.
Proof.
  intros Hh Hm Hlo Hhi.
  destruct (uptime_split e) as (Hh' & Hm' & Hlo' & Hhi').
  cbv zeta in *.
  set (d' := uptime_days e) in *. set (h' := uptime_hours e) in *.
  set (m' := uptime_minutes e) in *.
  assert (H1 : inject_Z (86400 * d + 3600 * h + 60 * m)
               < inject_Z (86400 * d' + 3600 * h' + 60 * m' + 60)).
  { rewrite (inject_Z_plus _ 60). change (inject_Z 60) with 60.
    eapply Qle_lt_trans; eassumption. }
  assert (H2 : inject_Z (86400 * d' + 3600 * h' + 60 * m')
               < inject_Z (86400 * d + 3600 * h + 60 * m + 60)).
  { rewrite (inject_Z_plus _ 60). change (inject_Z 60) with 60.
    eapply Qle_lt_trans; eassumption. }
  rewrite <- Zlt_Qlt in H1, H2. lia.
Qed.

(** An elapsed duration of [d] days, [h] hours, [m] minutes and [s]
    seconds, whatever the two instants, is rendered with [d], [h] and [m]:
    the seconds are dropped, and the text is that of the duration alone. *)
Theorem format_uptime_of_parts (now boot_time : Q) (d h m : Z) (s : Q) :
  (0 <= h < 24)%Z -> (0 <= m < 60)%Z -> 0 <= s -> s < 60 ->
  now - boot_time == inject_Z (86400 * d + 3600 * h + 60 * m) + s ->
  format_uptime now boot_time = uptime_text d h m.
Proof.
  intros Hh Hm Hs0 Hs1 He.
  destruct (uptime_unique (now - boot_time) d h m Hh Hm) as (Ed & Eh & Em);
    [lra | lra |].
  unfold format_uptime, uptime_text. now rewrite Ed, Eh, Em.
Qed.

Lemma format_uptime_of_parts_witness :
  format_uptime 300000 100000 = uptime_text 2 7 33.
Proof.
  apply (format_uptime_of_parts 300000 100000 2 7 33 20);
    [lia | lia | discriminate | reflexivity | reflexivity].
Defined.

(* ------------------------------------------------------------------ *)
(** * Further properties of the alerts *)

Section MoreAlertFacts.
Variable repr_float : Q -> string.

Local Ltac decide_thresholds :=
  repeat match goal with
         | |- context [Qlt_le_dec ?a ?b] => destruct (Qlt_le_dec a b)
         | H : context [Qlt_le_dec ?a ?b] |- _ => destruct (Qlt_le_dec a b)
         end.

Lemma alert_fields (os : psutil) (a : Alert) :
  In a (check_system_alerts repr_float os) ->
  domain_reading os (type a) = Some (value a)
  /\ message a = type a ++ " usage is " ++ repr_float (value a) ++ "%"
  /\ 75 < value a
  /\ (level a = high -> 90 < value a).
Proof.
  intros Hin. unfold check_system_alerts in Hin.
  decide_thresholds; cbn [app In] in Hin;
    repeat match type of Hin with
           | _ \/ _ => destruct Hin as [Hin | Hin]
           | False => contradiction
           | _ = a => subst a; cbn
           end;
    (repeat split; [reflexivity .. | lra | intros Hl; try discriminate Hl; lra]).
Qed.

Lemma alert_domains_distinct (os : psutil) :
  NoDup (map type (check_system_alerts repr_float os))
  /\ (List.length (check_system_alerts repr_float os) <= 4)%nat.
Proof.
  unfold check_system_alerts.
  decide_thresholds; cbn; (split; [|lia]);
    repeat (constructor; [cbn; intuition discriminate|]); constructor.
Qed.

Lemma no_alerts_iff (os : psutil) :
  check_system_alerts repr_float os = []
  <-> cpu_percent os <= 80
      /\ svmem.percent (virtual_memory os) <= 85
      /\ sdiskusage.percent (disk_usage os) <= 90
      /\ sswap.percent (swap_memory os) <= 75.
Proof.
  unfold check_system_alerts. split.
  - decide_thresholds; cbn; intros H; try discriminate H;
      repeat split; assumption.
  - intros (Hc & Hm & Hd & Hs).
    decide_thresholds; try reflexivity; exfalso; lra.
Qed.

Lemma alerts_text_fixed_iff (alerts : list Alert) :
  alerts_text alerts = no_alerts_text <-> alerts = [].
Proof.
  split; [|intros ->; reflexivity].
  destruct alerts as [|a alerts]; [reflexivity|]. intros H.
  rewrite alerts_text_nonempty in H by discriminate.
  discriminate H.
Qed.

End MoreAlertFacts.

(** Every alert carries the reading of its own domain as its value, a
    message made of the domain, " usage is ", that value and "%", a value
    above 75, and above 90 when its severity is high; there is one alert
    per domain at most, so four at most. *)
Theorem alert_invariants (repr_float : Q -> string) (os : psutil) :
  (forall a : Alert,
      In a (check_system_alerts repr_float os) ->
      domain_reading os (type a) = Some (value a)
      /\ message a = type a ++ " usage is " ++ repr_float (value a) ++ "%"
      /\ 75 < value a
      /\ (level a = high -> 90 < value a))
  /\ NoDup (map type (check_system_alerts repr_float os))
  /\ (List.length (check_system_alerts repr_float os) <= 4)%nat.
Proof.
  split; [intros a; apply alert_fields | apply alert_domains_distinct].
Qed.

Lemma alert_invariants_witness :
  let a := {| level := high; type := "Disk";
              message := "Disk usage is 96.0%"; value := 96 |} in
  domain_reading (sample 10 20 96 30) (type a) = Some (value a)
  /\ message a = type a ++ " usage is " ++ "96.0" ++ "%"
  /\ 75 < value a
  /\ (level a = high -> 90 < value a).
Proof.
  apply (proj1 (alert_invariants (fun _ => "96.0") (sample 10 20 96 30))).
  left. reflexivity.
Defined.

(** No alert is raised exactly when the four readings are at or below 80,
    85, 90 and 75 (the thresholds themselves raise nothing), and this is
    exactly when the [check_alerts] tool answers with its fixed text. *)
Theorem no_alerts_exactly_within_thresholds (repr_float : Q -> string)
    (str_upper : string -> string) (strftime : Q -> string)
    (os : psutil) (arguments : option dict) :
  let within :=
    cpu_percent os <= 80
    /\ svmem.percent (virtual_memory os) <= 85
    /\ sdiskusage.percent (disk_usage os) <= 90
    /\ sswap.percent (swap_memory os) <= 75 in
  (check_system_alerts repr_float os = [] <-> within)
  /\ (handle_call_tool repr_float str_upper strftime os "check_alerts"
        arguments
      = Return [ {| content_type := "text";
                    text := "✅ All systems normal - no alerts" |} ]
      <-> within).
Proof.
  cbv zeta. split; [apply no_alerts_iff|].
  rewrite <- (no_alerts_iff repr_float os).
  rewrite <- (alerts_text_fixed_iff (check_system_alerts repr_float os)).
  change (handle_call_tool repr_float str_upper strftime os "check_alerts"
            arguments)
    with (Return (text_content
                    (alerts_text (check_system_alerts repr_float os)))).
  unfold text_content, no_alerts_text. split.
  - intros [= H]. exact H.
  - intros ->. reflexivity.
Qed.

Lemma no_alerts_exactly_within_thresholds_witness :
  check_system_alerts (fun _ => "") (sample 80 85 90 75) = []
  /\ handle_call_tool (fun _ => "") (fun s => s) (fun _ => "")
       (sample 80 85 90 75) "check_alerts" None
     = Return [ {| content_type := "text";
                   text := "✅ All systems normal - no alerts" |} ].
Proof.
  pose proof (no_alerts_exactly_within_thresholds (fun _ => "") (fun s => s)
                (fun _ => "") (sample 80 85 90 75) None) as [H1 H2].
  cbv zeta in H1, H2.
  split; [apply H1 | apply H2]; repeat split; discriminate.
Defined.

(* ------------------------------------------------------------------ *)
(** * Further properties of the process report *)



Section MoreSortFacts.
Context {A : Type} (key : A -> Q).



End MoreSortFacts.







Lemma round_half_even_Z (z : Z) : Py.round_half_even (inject_Z z) = z.
Proof.
  unfold Py.round_half_even. rewrite Qfloor_Z.
  destruct (Qcompare_spec (inject_Z z - inject_Z z) (1 # 2)) as [E | E | E];
    [exfalso; lra | reflexivity | exfalso; lra].
Qed.

(** A process whose cpu, memory and resident size could not be read is
    listed with 0.0 everywhere (and with the name "None" when the name is
    missing too) and counts as a fraction of 0 in the sort; a resident size
    of [k] times 1048576 bytes is shown as [k].0 MB. *)
Theorem process_of_info_defaults (pinfo : ProcInfo) :
  (info_cpu_percent pinfo = None -> info_memory_percent pinfo = None ->
   info_rss pinfo = None ->
   (forall sort_by : string,
       selected_fraction sort_by (process_of_info pinfo) = 0)
   /\ forall i : Z,
       process_lines i (process_of_info pinfo)
       = Py.str_int i ++ ". **"
           ++ match info_name pinfo with Some s => s | None => "None" end
           ++ "** (PID: " ++ Py.str_int (info_pid pinfo) ++ ")" ++ nl
           ++ "   • CPU: 0.0%" ++ nl
           ++ "   • Memory: 0.0% (0.0 MB)" ++ nl ++ nl)
  /\ (forall k : Z,
        (0 <= k)%Z -> info_rss pinfo = Some (k * 1048576)%Z ->
        Py.format_fixed 1 (memory_mb (process_of_info pinfo))
        = Py.str_int k ++ ".0").
Proof.
  split.
  - intros Ec Em Er. split.
    + intros sort_by. unfold selected_fraction, process_of_info.
      destruct (String.eqb sort_by "memory"); cbn; now rewrite ?Ec, ?Em.
    + intros i. unfold process_lines, process_of_info. cbn.
      rewrite Ec, Em, Er. destruct (info_name pinfo); reflexivity.
  - intros k Hk Er. unfold process_of_info. cbn [memory_mb]. rewrite Er.
    assert (E : inject_Z (k * 1048576) / 1024 / 1024 == inject_Z k).
    { rewrite inject_Z_mult. change (inject_Z 1048576) with 1048576. field. }
    rewrite (format_fixed_proper 1 _ _ E).
    assert (Hq : 0 <= inject_Z k)
      by (change 0 with (inject_Z 0); now rewrite <- Zle_Qle).
    rewrite (format_fixed_one_decimal _ Hq).
    assert (Et : inject_Z k * 10 == inject_Z (k * 10))
      by (rewrite inject_Z_mult; reflexivity).
    rewrite (round_half_even_proper _ _ Et), round_half_even_Z.
    rewrite Z.div_mul by discriminate. rewrite Z.mod_mul by discriminate.
    reflexivity.
Qed.

Lemma process_of_info_defaults_witness :
  let pinfo := {| info_pid := 7; info_name := None;
                  info_cpu_percent := None; info_memory_percent := None;
                  info_rss := None |} in
  let grown := {| info_pid := 7; info_name := None;
                  info_cpu_percent := None; info_memory_percent := None;
                  info_rss := Some (3 * 1048576)%Z |} in
  process_lines 1 (process_of_info pinfo)
  = Py.str_int 1 ++ ". **" ++ "None" ++ "** (PID: " ++ Py.str_int 7 ++ ")" ++ nl
      ++ "   • CPU: 0.0%" ++ nl ++ "   • Memory: 0.0% (0.0 MB)" ++ nl ++ nl
  /\ Py.format_fixed 1 (memory_mb (process_of_info grown)) = Py.str_int 3 ++ ".0".
Proof.
  cbv zeta. split.
  - apply (proj1 (process_of_info_defaults
                    {| info_pid := 7; info_name := None;
                       info_cpu_percent := None; info_memory_percent := None;
                       info_rss := None |}));
      reflexivity.
  - apply (proj2 (process_of_info_defaults
                    {| info_pid := 7; info_name := None;
                       info_cpu_percent := None; info_memory_percent := None;
                       info_rss := Some (3 * 1048576)%Z |}) 3%Z);
      [lia | reflexivity].
Defined.

(* ------------------------------------------------------------------ *)
(** * The network and CPU reports *)

Lemma filter_twice {A : Type} (p : A -> bool) (l : list A) :
  filter p (filter p l) = filter p l.
Proof.
  induction l as [|x l IH]; [reflexivity|].
  cbn [filter]. destruct (p x) eqn:E; [|exact IH].
  cbn [filter]. now rewrite E, IH.
Qed.

Lemma interface_lines_ipv4_only (addrs : list (string * list snicaddr.t)) :
  flat_map
    (fun '(interface, addr_list) =>
       map (fun addr => "• " ++ interface ++ ": " ++ snicaddr.address addr)
         (filter (fun addr => (snicaddr.family addr =? 2)%Z) addr_list))
    addrs
  = flat_map
      (fun '(interface, addr_list) =>
         map (fun addr => "• " ++ interface ++ ": " ++ snicaddr.address addr)
           (filter (fun addr => (snicaddr.family addr =? 2)%Z) addr_list))
      (ipv4_only addrs).
Proof.
  unfold ipv4_only.
  induction addrs as [|[interface l] addrs IH]; [reflexivity|].
  cbn [flat_map map filter]. rewrite IH.
  change (fun addr => (snicaddr.family addr =? 2)%Z) with is_ipv4.
  destruct (filter is_ipv4 l) as [|a l'] eqn:E; cbn [List.length Nat.eqb negb].
  - reflexivity.
  - cbn [flat_map]. now rewrite <- E, filter_twice.
Qed.

Lemma interface_lines_none (addrs : list (string * list snicaddr.t)) :
  (forall interface l a,
      In (interface, l) addrs -> In a l -> snicaddr.family a <> 2%Z) ->
  ipv4_only addrs = [].
Proof.
  unfold ipv4_only. induction addrs as [|[interface l] addrs IH]; intros H.
  - reflexivity.
  - cbn [map filter].
    assert (E : filter is_ipv4 l = []).
    { clear IH. assert (Hl : forall a, In a l -> snicaddr.family a <> 2%Z)
        by (intros a Ha; apply (H interface l a); [left; reflexivity | exact Ha]).
      clear H. induction l as [|a l IHl]; [reflexivity|].
      cbn [filter]. unfold is_ipv4 at 1.
      destruct (Z.eqb_spec (snicaddr.family a) 2) as [E2 | _].
      - exfalso. apply (Hl a); [left; reflexivity | exact E2].
      - apply IHl. intros b Hb. apply Hl. now right. }
    rewrite E. cbn [List.length Nat.eqb negb]. apply IH.
    intros i l0 a Hin. apply (H i l0 a). now right.
Qed.

(** The addresses that are not of the IPv4 family, and the interfaces that
    have none of that family, never show in the network report; with no
    IPv4 address at all the report is the one of a machine without
    interfaces (no "Active Interfaces" section). *)
Theorem get_network_stats_ipv4_only (os : psutil) :
  get_network_stats os
  = get_network_stats (with_net_if_addrs os (ipv4_only (net_if_addrs os)))
  /\ ((forall interface l a,
          In (interface, l) (net_if_addrs os) -> In a l ->
          snicaddr.family a <> 2%Z) ->
      get_network_stats os = get_network_stats (with_net_if_addrs os [])).
Proof.
  assert (Hfirst : get_network_stats os
                   = get_network_stats
                       (with_net_if_addrs os (ipv4_only (net_if_addrs os)))).
  { unfold get_network_stats.
    cbn [net_if_addrs net_io_counters with_net_if_addrs].
    now rewrite <- interface_lines_ipv4_only. }
  split; [exact Hfirst|].
  intros Hnone. rewrite Hfirst.
  now rewrite (interface_lines_none _ Hnone).
Qed.

Lemma get_network_stats_ipv4_only_witness :
  let os :=
    with_net_if_addrs (sample 0 0 0 0)
      [ ("lo0", [ {| snicaddr.family := 30; snicaddr.address := "::1" |} ]);
        ("awdl0", []) ] in
  get_network_stats os = get_network_stats (with_net_if_addrs os []).
Proof.
  cbv zeta.
  apply (proj2 (get_network_stats_ipv4_only
                  (with_net_if_addrs (sample 0 0 0 0)
                     [ ("lo0", [ {| snicaddr.family := 30;
                                    snicaddr.address := "::1" |} ]);
                       ("awdl0", []) ]))).
  intros interface l a Hin Ha. cbn in Hin.
  destruct Hin as [[= <- <-] | [[= <- <-] | []]].
  - destruct Ha as [<- | []]. discriminate.
  - destruct Ha.
Defined.

(** The per-core list reaches the CPU report in one place only: between
    the same two texts, there is one line per core, in the order of the
    list, numbered from 0. *)
Theorem get_cpu_details_cores (repr_float : Q -> string) (os : psutil) :
  exists before after : string,
    forall cores : list Q,
      get_cpu_details repr_float (with_cpu_percent_percpu os cores)
      = before ++ concat_all (core_lines repr_float cores) ++ after
      /\ List.length (core_lines repr_float cores) = List.length cores.
Proof.
  unfold get_cpu_details. cbv zeta.
  cbn [cpu_percent_percpu cpu_count cpu_count_physical cpu_freq getloadavg
       with_cpu_percent_percpu].
  destruct (getloadavg os) as [[load1 load5] load15].
  match goal with
  | |- exists before after, forall cores,
        (fold_left _ _ ?init ++ ?A) ++ ?B = _ /\ _ =>
      exists init, (A ++ B)
  end.
  intros cores. split.
  - change 0%Z with (Z.of_nat 0). rewrite enumerate_seq.
    rewrite (fold_left_append_pairs
               (fun i percent =>
                  "• Core " ++ Py.str_int i ++ ": " ++ repr_float percent
                    ++ "%" ++ nl)).
    rewrite map_map. unfold core_lines.
    rewrite (map_ext
               (fun x : nat * Q =>
                  let '(i, x0) := let '(i, x0) := x in (Z.of_nat i, x0) in
                  "• Core " ++ Py.str_int i ++ ": " ++ repr_float x0
                    ++ "%" ++ nl)
               (fun '(i, percent) =>
                  "• Core " ++ Py.str_int (Z.of_nat i) ++ ": "
                    ++ repr_float percent ++ "%" ++ nl))
      by (intros [i x]; reflexivity).
    now rewrite 2!(append_assoc _ _ _).
  - unfold core_lines. rewrite length_map, length_combine, length_seq. lia.
Qed.

(* ------------------------------------------------------------------ *)
(** * The conversion of an [int] to a [float] *)

(** The exponent and the significand that [float_of_int] computes. *)
Lemma float_of_int_parts (n : Z) :
  let a := Z.abs n in
  let e := Z.max 0 (Z.log2 a - 52) in
  let m := Py.round_half_even (inject_Z a / inject_Z (2 ^ e)) in
  (0 <= e)%Z
  /\ (a / 2 ^ e <= m <= a / 2 ^ e + 1)%Z
  /\ (2 ^ e * (a / 2 ^ e) <= a)%Z
  /\ ((a < 2 ^ 53)%Z -> e = 0%Z)
  /\ ((2 ^ 53 <= a)%Z -> (2 ^ 52 <= a / 2 ^ e)%Z /\ (2 ^ e <= a)%Z).
Proof.
  cbv zeta. set (a := Z.abs n). set (e := Z.max 0 (Z.log2 a - 52)).
  assert (He : (0 <= e)%Z) by (subst e; lia).
  assert (Hp : (0 < 2 ^ e)%Z) by (apply Z.pow_pos_nonneg; lia).
  split; [exact He|]. split.
  { pose proof (round_half_even_floor (inject_Z a / inject_Z (2 ^ e))) as H.
    rewrite <- Zdiv_Qdiv in H. exact H. }
  split; [apply Z.mul_div_le; exact Hp|].
  split.
  - intros Ha. subst e.
    destruct (Z.eq_dec a 0) as [-> | Hne]; [reflexivity|].
    assert (Hpos : (0 < a)%Z) by (subst a; lia).
    apply (Z.log2_lt_pow2 a 53 Hpos) in Ha. lia.
  - intros Ha.
    assert (H53 : (0 < 2 ^ 53)%Z) by reflexivity.
    assert (Hpos : (0 < a)%Z) by lia.
    assert (Hlog : (53 <= Z.log2 a)%Z)
      by (apply (Z.log2_le_pow2 a 53 Hpos); exact Ha).
    assert (Ee : e = (Z.log2 a - 52)%Z) by (subst e; lia).
    destruct (Z.log2_spec a Hpos) as [Hlo _].
    assert (Hsplit : (2 ^ Z.log2 a = 2 ^ 52 * 2 ^ e)%Z).
    { rewrite <- Z.pow_add_r by lia. f_equal. lia. }
    split.
    + apply Z.div_le_lower_bound; [exact Hp|]. rewrite Z.mul_comm.
      rewrite <- Hsplit. exact Hlo.
    + eapply Z.le_trans; [|exact Hlo].
      apply Z.pow_le_mono_r; lia.
Qed.

(** An [int] of 53 bits at most is its own float. *)
Lemma float_of_int_exact (n : Z) :
  (Z.abs n <= 2 ^ 53)%Z -> Py.float_of_int n = Return (inject_Z n).
Proof.
  intros Hn.
  assert (Hcase : (Z.abs n < 2 ^ 53 \/ n = 2 ^ 53 \/ n = - 2 ^ 53)%Z) by lia.
  destruct Hcase as [Hlt | [-> | ->]]; [|reflexivity | reflexivity].
  destruct (float_of_int_parts n) as (_ & _ & _ & He & _).
  cbv zeta in He. specialize (He Hlt).
  unfold Py.float_of_int. rewrite He. change (2 ^ 0)%Z with 1%Z.
  rewrite (round_half_even_proper (inject_Z (Z.abs n) / inject_Z 1)
             (inject_Z (Z.abs n)))
    by (change (inject_Z 1) with 1; field).
  rewrite round_half_even_Z, !Z.mul_1_r.
  destruct (Z.leb_spec (2 ^ 1024) (Z.abs n)) as [Hbig | _].
  - exfalso. assert (H : (2 ^ 53 < 2 ^ 1024)%Z) by reflexivity. lia.
  - f_equal. f_equal. lia.
Qed.

(** The float of a larger [int] is as large: its absolute value is 2**52 at
    least. *)
Lemma float_of_int_large (n : Z) (x : Q) :
  (2 ^ 53 <= Z.abs n)%Z -> Py.float_of_int n = Return x ->
  exists v : Z,
    x = inject_Z (Z.sgn n * v) /\ (2 ^ 52 <= v)%Z.
Proof.
  intros Hn. unfold Py.float_of_int.
  destruct (float_of_int_parts n) as (He & Hm & _ & _ & Hbig).
  cbv zeta in *. destruct (Hbig Hn) as [Hq _].
  set (e := Z.max 0 (Z.log2 (Z.abs n) - 52)) in *.
  set (m := Py.round_half_even _) in *.
  destruct (2 ^ 1024 <=? m * 2 ^ e)%Z; [discriminate|].
  intros [= <-]. exists (m * 2 ^ e)%Z. split; [now rewrite Z.mul_assoc|].
  assert (Hp : (1 <= 2 ^ e)%Z)
    by (apply (Z.pow_le_mono_r 2 0 e); lia).
  assert (H52 : (0 < 2 ^ 52)%Z) by reflexivity.
  nia.
Qed.

(** The conversion keeps the sign and the side of 1024. *)
Lemma float_of_int_order (n : Z) (x : Q) :
  Py.float_of_int n = Return x ->
  ((n < 1024)%Z <-> x < 1024)
  /\ ((0 <= n)%Z -> 0 <= x)
  /\ ((n < 0)%Z -> x < 0).
Proof.
  intros Hx.
  destruct (Z.le_gt_cases (Z.abs n) (2 ^ 53)) as [Hsmall | Hlarge].
  - rewrite (float_of_int_exact n Hsmall) in Hx. injection Hx as <-.
    change 1024 with (inject_Z 1024). change 0 with (inject_Z 0).
    rewrite <- !Zlt_Qlt, <- Zle_Qle. tauto.
  - destruct (float_of_int_large n x ltac:(lia) Hx) as (v & -> & Hv).
    assert (H52 : (1024 < 2 ^ 52)%Z) by reflexivity.
    assert (H53 : (1024 < 2 ^ 53)%Z) by reflexivity.
    change 1024 with (inject_Z 1024). change 0 with (inject_Z 0).
    rewrite <- !Zlt_Qlt, <- Zle_Qle.
    destruct n as [|p|p]; cbn [Z.sgn Z.abs] in *; try lia;
      repeat split; intros; try lia; nia.
Qed.

(** Below 2**1023 in absolute value the conversion does not overflow. *)
Lemma float_of_int_returns (n : Z) :
  (Z.abs n < 2 ^ 1023)%Z -> exists x : Q, Py.float_of_int n = Return x.
Proof.
  intros Hn.
  destruct (Z.le_gt_cases (Z.abs n) (2 ^ 53)) as [Hsmall | Hlarge].
  - eexists. now apply float_of_int_exact.
  - unfold Py.float_of_int.
    destruct (float_of_int_parts n) as (He & Hm & Hdiv & _ & Hbig).
    cbv zeta in *. destruct (Hbig ltac:(lia)) as [_ Hpow].
    set (e := Z.max 0 (Z.log2 (Z.abs n) - 52)) in *.
    set (m := Py.round_half_even _) in *.
    destruct (Z.leb_spec (2 ^ 1024) (m * 2 ^ e)) as [Hover | _];
      [|eexists; reflexivity].
    exfalso.
    assert (H1024 : (2 ^ 1024 = 2 * 2 ^ 1023)%Z) by reflexivity.
    assert (Hp : (0 < 2 ^ e)%Z) by (apply Z.pow_pos_nonneg; lia).
    assert (Hle : (m * 2 ^ e <= Z.abs n + 2 ^ e)%Z) by nia.
    lia.
Qed.

(* ------------------------------------------------------------------ *)
(** * The byte counts, through the conversion *)

Lemma format_bytes_from_float (units : list string) :
  forall x : Q,
    format_bytes_from units (Float x) = Return (format_float_from units x).
Proof.
  induction units as [|unit units IH]; intros x; [reflexivity|].
  cbn [format_bytes_from format_float_from lt_1024 to_float bind].
  destruct (Qlt_le_dec x 1024); [reflexivity | apply IH].
Qed.

Lemma format_bytes_from_int (unit : string) (units : list string)
    (n : Z) (x : Q) :
  Py.float_of_int n = Return x ->
  format_bytes_from (unit :: units) (Int n)
  = Return (format_float_from (unit :: units) x).
Proof.
  intros Hx. destruct (float_of_int_order n x Hx) as (Hside & _ & _).
  cbn [format_bytes_from format_float_from lt_1024 to_float].
  rewrite Hx. cbn [bind].
  destruct (Z.ltb_spec n 1024) as [Hlt | Hge];
    destruct (Qlt_le_dec x 1024) as [Hlt' | Hge'].
  - reflexivity.
  - exfalso. apply Hside in Hlt. lra.
  - exfalso. apply Hside in Hlt'. lia.
  - apply format_bytes_from_float.
Qed.

(** Once the count is a float [x], the text is that of the float. *)
Lemma format_bytes_to_float (bytes : number) (x : Q) :
  to_float bytes = Return x -> format_bytes bytes = Return (format_float x).
Proof.
  destruct bytes as [n | y]; cbn [to_float].
  - apply format_bytes_from_int.
  - intros [= ->]. apply format_bytes_from_float.
Qed.

(** A count that does not convert raises, whatever its size. *)
Lemma format_bytes_raises (bytes : number) (e : Exception) :
  to_float bytes = Raise e -> format_bytes bytes = Raise e.
Proof.
  intros He. unfold format_bytes. cbn [format_bytes_from].
  rewrite He. destruct (lt_1024 bytes); reflexivity.
Qed.

(** The only error of [format_bytes] is the overflow of the conversion. *)
Lemma format_bytes_error (bytes : number) (e : Exception) :
  format_bytes bytes = Raise e ->
  e = OverflowError "int too large to convert to float".
Proof.
  destruct (to_float bytes) as [x | e'] eqn:Hx.
  - rewrite (format_bytes_to_float bytes x Hx). discriminate.
  - rewrite (format_bytes_raises bytes e' Hx). intros [= <-].
    destruct bytes as [n | y]; [|discriminate Hx].
    cbn [to_float] in Hx. unfold Py.float_of_int in Hx.
    destruct (_ <=? _)%Z; [now injection Hx | discriminate Hx].
Qed.

Lemma to_float_sign (bytes : number) (x : Q) :
  to_float bytes = Return x ->
  (0 <= number_value bytes -> 0 <= x)
  /\ (number_value bytes < 0 -> x < 0)
  /\ (1024 <= number_value bytes -> 1024 <= x).
Proof.
  destruct bytes as [n | y]; cbn [to_float number_value].
  - intros Hx. destruct (float_of_int_order n x Hx) as (Hside & Hpos & Hneg).
    change 0 with (inject_Z 0). change 1024 with (inject_Z 1024).
    rewrite <- Zle_Qle, <- Zlt_Qlt, <- Zle_Qle.
    change (inject_Z 0) with 0. change (inject_Z 1024) with 1024.
    repeat split; [exact Hpos | exact Hneg |].
    intros Hge. destruct (Qlt_le_dec x 1024) as [Hlt | Hok]; [|exact Hok].
    apply Hside in Hlt. lia.
  - intros [= ->]. tauto.
Qed.

(** The text of a float that is not negative, and the number read back. *)
Lemma format_float_reads_back (x : Q) :
  0 <= x ->
  exists (k : nat) (v : Q),
    (k <= 5)%nat
    /\ (k = 0%nat \/ inject_Z (1024 ^ Z.of_nat k) <= x)
    /\ (k = 5%nat \/ x < inject_Z (1024 ^ Z.of_nat (k + 1)))
    /\ format_float x = Py.format_fixed 1 (scaled x k) ++ nth k byte_units ""
    /\ leading_value (format_float x) = Some v
    /\ v == inject_Z (Py.round_half_even (scaled x k * 10)) / 10.
Proof.
  intros Hx. destruct (unit_reached x Hx) as (k & Hk & Hlo & Hhi).
  pose proof (format_float_scaled x k Hk Hlo Hhi) as Hfmt.
  destruct (leading_value_format_fixed (scaled x k) (nth k byte_units "")
              (scaled_nonneg x k Hx) (span_digits_unit k)) as (v & Hv & Ev).
  exists k, v. rewrite Hfmt. repeat split; assumption.
Qed.




(** The float of an [int] is the [int] up to one part in 2**53. *)
Lemma float_of_int_close (n : Z) (x : Q) :
  Py.float_of_int n = Return x ->
  inject_Z n - inject_Z (Z.abs n) * (1 # 9007199254740992) <= x
  /\ x <= inject_Z n + inject_Z (Z.abs n) * (1 # 9007199254740992).
Proof.
  intros Hx.
  assert (Ha : 0 <= inject_Z (Z.abs n))
    by (change 0 with (inject_Z 0); rewrite <- Zle_Qle; lia).
  destruct (Z.le_gt_cases (Z.abs n) (2 ^ 53)) as [Hsmall | Hlarge].
  - rewrite (float_of_int_exact n Hsmall) in Hx. injection Hx as <-.
    split; lra.
  - unfold Py.float_of_int in Hx.
    destruct (float_of_int_parts n) as (He & _ & Hdiv & _ & Hbig).
    cbv zeta in *. destruct (Hbig ltac:(lia)) as [H52 _].
    set (a := Z.abs n) in *.
    set (e := Z.max 0 (Z.log2 a - 52)) in *.
    assert (Hp : (0 < 2 ^ e)%Z) by (apply Z.pow_pos_nonneg; lia).
    pose proof (inject_Z_pos _ Hp) as HP.
    destruct (round_half_even_close (inject_Z a / inject_Z (2 ^ e)))
      as [Clo Chi].
    set (m := Py.round_half_even _) in *.
    destruct (2 ^ 1024 <=? m * 2 ^ e)%Z; [discriminate Hx|].
    injection Hx as <-.
    assert (Hq : inject_Z (2 ^ e) * (inject_Z a / inject_Z (2 ^ e))
                 == inject_Z a)
      by (apply Qmult_div_r; intros E0; rewrite E0 in HP; discriminate HP).
    apply (proj2 (Qmult_le_l _ _ _ HP)) in Clo.
    apply (proj2 (Qmult_le_l _ _ _ HP)) in Chi.
    set (q := inject_Z a / inject_Z (2 ^ e)) in *.
    assert (E1 : inject_Z (2 ^ e) * (q - (1 # 2))
                 == inject_Z (2 ^ e) * q - inject_Z (2 ^ e) * (1 # 2)) by ring.
    assert (E2 : inject_Z (2 ^ e) * (q + (1 # 2))
                 == inject_Z (2 ^ e) * q + inject_Z (2 ^ e) * (1 # 2)) by ring.
    rewrite E1, Hq in Clo. rewrite E2, Hq in Chi.
    assert (Hscale : inject_Z (2 ^ 52) * inject_Z (2 ^ e) <= inject_Z a).
    { rewrite <- inject_Z_mult, <- Zle_Qle.
      assert (H0 : (0 < 2 ^ 52)%Z) by reflexivity. nia. }
    change (inject_Z (2 ^ 52)) with 4503599627370496 in Hscale.
    assert (Ex : inject_Z (Z.sgn n * m * 2 ^ e)
                 == inject_Z (Z.sgn n) * (inject_Z (2 ^ e) * inject_Z m))
      by (rewrite !inject_Z_mult; ring).
    rewrite Ex. subst a.
    destruct n as [|p|p]; cbn [Z.sgn Z.abs] in *; [lia | |].
    + change (inject_Z 1) with 1. split; lra.
    + change (inject_Z (-1)) with (-1).
      change (inject_Z (Z.neg p)) with (- inject_Z (Z.pos p)).
      split; lra.
Qed.

(** C3, refuted as stated: 1024**6 bytes print as "1024.0PB"; 1048575
    bytes, scaled to 1023.999..., print as "1024.0KB"; and
    1152865209611504836 bytes, below 1024**6, print as "1024.0PB": the
    number in front is 1024, outside [0, 1024). *)
Lemma format_bytes_leading_value_counterexample :
  0 <= number_value (Int (1024 ^ 6))
  /\ format_bytes (Int (1024 ^ 6)) = Return "1024.0PB"
  /\ ~ leading_in_range (Int (1024 ^ 6))
  /\ 0 <= number_value (Int 1048575)
  /\ format_bytes (Int 1048575) = Return "1024.0KB"
  /\ ~ leading_in_range (Int 1048575)
  /\ format_bytes (Int 1152865209611504836) = Return "1024.0PB"
  /\ ~ leading_in_range (Int 1152865209611504836).
Proof.
  assert (Hout : forall (bytes : number) (s : string),
             format_bytes bytes = Return s ->
             leading_value s = Some (1024 + 0 / 10) ->
             ~ leading_in_range bytes).
  { intros bytes s Es E (s' & v & Hs & Hv & _ & Hlt).
    rewrite Es in Hs. injection Hs as <-. rewrite E in Hv.
    injection Hv as <-. vm_compute in Hlt. discriminate Hlt. }
  split; [discriminate|]. split; [reflexivity|].
  split; [eapply Hout; reflexivity|].
  split; [discriminate|]. split; [reflexivity|].
  split; [eapply Hout; reflexivity|].
  split; [reflexivity|].
  eapply Hout; reflexivity.
Qed.

(** C3, amended: for a count that is not negative and converts to the
    float [x] (itself for a float and for an [int] of 53 bits at most, the
    nearest float otherwise): when [x] is below 1024**6 the number in
    front of the unit is the scaled float, which lies in [0, 1024),
    rounded to one decimal; it lies in the closed interval [0, 1024], and
    below 1024 when the scaled float is below 1023.95.  When [x] is
    1024**6 or more, the number in front of PB is 1024 or more. *)
Theorem format_bytes_leading_value_bounds (bytes : number) (x : Q) :
  0 <= number_value bytes -> to_float bytes = Return x ->
  (x < inject_Z (1024 ^ 6) ->
   exists (k : nat) (v : Q),
     (k <= 5)%nat
     /\ 0 <= scaled x k /\ scaled x k < 1024
     /\ format_bytes bytes
        = Return (Py.format_fixed 1 (scaled x k) ++ nth k byte_units "")
     /\ leading_value (Py.format_fixed 1 (scaled x k) ++ nth k byte_units "")
        = Some v
     /\ v == inject_Z (Py.round_half_even (scaled x k * 10)) / 10
     /\ 0 <= v /\ v <= 1024
     /\ (scaled x k < 20479 # 20 -> v < 1024))
  /\ (inject_Z (1024 ^ 6) <= x ->
      exists v : Q,
        format_bytes bytes = Return (Py.format_fixed 1 (scaled x 5) ++ "PB")
        /\ leading_value (Py.format_fixed 1 (scaled x 5) ++ "PB") = Some v
        /\ 1024 <= v)
  /\ x - number_value bytes <= Qabs (number_value bytes) * (1 # 9007199254740992)
  /\ number_value bytes - x <= Qabs (number_value bytes) * (1 # 9007199254740992).
Proof.
  intros Hb Hx.
  assert (Hx0 : 0 <= x) by (now apply (to_float_sign bytes x Hx)).
  rewrite (format_bytes_to_float bytes x Hx).
  split; [|split].
  - intros H6.
    destruct (unit_index x Hx0 H6) as (k & Hk & Hlo & Hhi & Hs0 & Hs1).
    pose proof (format_float_scaled x k Hk Hlo (or_intror Hhi)) as Hfmt.
    destruct (leading_value_format_fixed (scaled x k) (nth k byte_units "")
                Hs0 (span_digits_unit k)) as (v & Hv & Ev).
    set (t := Py.round_half_even (scaled x k * 10)) in *.
    assert (Ht0 : (0 <= t)%Z) by (apply round_half_even_nonneg; lra).
    assert (Ht1 : (t <= 10240)%Z)
      by (apply round_half_even_le; change (inject_Z 10240) with 10240; lra).
    rewrite Zle_Qle in Ht0, Ht1.
    change (inject_Z 0) with 0 in Ht0.
    change (inject_Z 10240) with 10240 in Ht1.
    change (inject_Z t / 10) with (inject_Z t * (1 # 10)) in Ev.
    exists k, v. rewrite Hfmt.
    do 8 (split; [first [assumption | reflexivity | lra]|]).
    intros Hbelow.
    assert (Ht2 : (t < 10240)%Z).
    { apply round_half_even_below_half.
      change (inject_Z 10240) with 10240. lra. }
    rewrite Zlt_Qlt in Ht2. change (inject_Z 10240) with 10240 in Ht2. lra.
  - intros H6.
    assert (Hfmt : format_float x
                   = Py.format_fixed 1 (scaled x 5) ++ nth 5 byte_units "")
      by (apply format_float_scaled;
          [lia | right; eapply Qle_trans; [|exact H6]; discriminate
          | left; reflexivity]).
    assert (Hs : 1024 <= scaled x 5).
    { unfold scaled. revert H6. powers_of_1024.
      change (inject_Z (1024 ^ 6)) with 1152921504606846976.
      change (x / 1125899906842624) with (x * (1 # 1125899906842624)).
      intros H6. lra. }
    destruct (leading_value_format_fixed (scaled x 5) (nth 5 byte_units "")
                ltac:(lra) (span_digits_unit 5)) as (v & Hv & Ev).
    set (t := Py.round_half_even (scaled x 5 * 10)) in *.
    assert (Ht : (10240 <= t)%Z).
    { pose proof (round_half_even_floor (scaled x 5 * 10)) as Hfl. fold t in Hfl.
      assert (H10 : (Qfloor 10240 <= Qfloor (scaled x 5 * 10))%Z)
        by (apply Qfloor_resp_le; lra).
      change (Qfloor 10240) with 10240%Z in H10. lia. }
    rewrite Zle_Qle in Ht. change (inject_Z 10240) with 10240 in Ht.
    change (inject_Z t / 10) with (inject_Z t * (1 # 10)) in Ev.
    exists v. rewrite Hfmt. repeat split; [assumption | lra].
  - rewrite (Qabs_pos _ Hb).
    destruct bytes as [n | y]; cbn [to_float number_value] in *.
    + destruct (float_of_int_close n x Hx) as [Clo Chi].
      assert (En : Z.abs n = n).
      { apply Z.abs_eq. change 0 with (inject_Z 0) in Hb.
        now rewrite <- Zle_Qle in Hb. }
      rewrite En in Clo, Chi. split; lra.
    + injection Hx as <-. split; lra.
Qed.

Lemma format_bytes_leading_value_bounds_witness :
  (exists (k : nat) (v : Q),
      (k <= 5)%nat
      /\ 0 <= scaled 1048575 k /\ scaled 1048575 k < 1024
      /\ format_bytes (Int 1048575)
         = Return (Py.format_fixed 1 (scaled 1048575 k) ++ nth k byte_units "")
      /\ leading_value
           (Py.format_fixed 1 (scaled 1048575 k) ++ nth k byte_units "")
         = Some v
      /\ v == inject_Z (Py.round_half_even (scaled 1048575 k * 10)) / 10
      /\ 0 <= v /\ v <= 1024
      /\ (scaled 1048575 k < 20479 # 20 -> v < 1024))
  /\ (exists v : Q,
        format_bytes (Int (1024 ^ 6))
        = Return (Py.format_fixed 1 (scaled (inject_Z (1024 ^ 6)) 5) ++ "PB")
        /\ leading_value
             (Py.format_fixed 1 (scaled (inject_Z (1024 ^ 6)) 5) ++ "PB")
           = Some v
        /\ 1024 <= v).
Proof.
  split.
  - apply (proj1 (format_bytes_leading_value_bounds (Int 1048575) 1048575
                    ltac:(discriminate) eq_refl)).
    reflexivity.
  - apply (proj1 (proj2 (format_bytes_leading_value_bounds (Int (1024 ^ 6))
                           (inject_Z (1024 ^ 6)) ltac:(discriminate) eq_refl))).
    discriminate.
Defined.

(** A negative count is never scaled: once converted to a float it is
    printed in B, with its sign; an [int] past 53 bits is printed as the
    float it rounds to, so -(2**53 + 1) prints as -9007199254740992.0B. *)
Theorem format_bytes_negative (bytes : number) (x : Q) :
  number_value bytes < 0 -> to_float bytes = Return x ->
  x < 0
  /\ format_bytes bytes
     = Return
         ("-" ++ Py.str_int (Py.round_half_even (- x * 10) / 10) ++ "."
            ++ Py.str_int (Py.round_half_even (- x * 10) mod 10) ++ "B").
Proof.
  intros Hb Hx.
  assert (Hneg : x < 0) by (now apply (to_float_sign bytes x Hx)).
  split; [exact Hneg|].
  rewrite (format_bytes_to_float bytes x Hx). unfold format_float.
  rewrite format_float_from_lt by lra.
  unfold Py.format_fixed.
  destruct (Qlt_le_dec x 0) as [_ | Hge]; [|exfalso; lra].
  change (10 ^ Z.of_nat 1)%Z with 10%Z. change (inject_Z 10) with 10.
  rewrite (round_half_even_proper (Qabs x * 10) (- x * 10))
    by (rewrite (Qabs_neg x); [reflexivity | lra]).
  cbn [Py.frac_digits append]. now rewrite !append_assoc.
Qed.

Lemma format_bytes_negative_witness :
  -9007199254740992 < 0
  /\ format_bytes (Int (- (2 ^ 53 + 1)))
     = Return
         ("-"
            ++ Py.str_int
                 (Py.round_half_even (- (-9007199254740992) * 10) / 10)
            ++ "."
            ++ Py.str_int
                 (Py.round_half_even (- (-9007199254740992) * 10) mod 10)
            ++ "B").
Proof.
  apply (format_bytes_negative (Int (- (2 ^ 53 + 1))) (-9007199254740992)).
  - reflexivity.
  - reflexivity.
Defined.

(** For a count that is not negative and converts to the float [x], the
    number printed differs from the scaled float by 0.05 at most, in every
    unit, PB included; and [x] differs from the count by one part in 2**53
    at most. *)
Theorem format_bytes_accuracy (bytes : number) (x : Q) :
  0 <= number_value bytes -> to_float bytes = Return x ->
  exists (k : nat) (v : Q),
    (k <= 5)%nat
    /\ format_bytes bytes
       = Return (Py.format_fixed 1 (scaled x k) ++ nth k byte_units "")
    /\ leading_value (Py.format_fixed 1 (scaled x k) ++ nth k byte_units "")
       = Some v
    /\ scaled x k - (1 # 20) <= v
    /\ v <= scaled x k + (1 # 20)
    /\ number_value bytes * (1 - (1 # 9007199254740992)) <= x
    /\ x <= number_value bytes * (1 + (1 # 9007199254740992)).
Proof.
  intros Hb Hx.
  assert (Hx0 : 0 <= x) by (now apply (to_float_sign bytes x Hx)).
  destruct (format_float_reads_back x Hx0)
    as (k & v & Hk & _ & _ & Hfmt & Hv & Ev).
  exists k, v. rewrite (format_bytes_to_float bytes x Hx), Hfmt.
  rewrite Hfmt in Hv.
  do 3 (split; [first [assumption | reflexivity]|]).
  destruct (round_half_even_close (scaled x k * 10)) as [Clo Chi].
  change (inject_Z (Py.round_half_even (scaled x k * 10)) / 10)
    with (inject_Z (Py.round_half_even (scaled x k * 10)) * (1 # 10)) in Ev.
  split; [lra|]. split; [lra|].
  destruct bytes as [n | y]; cbn [to_float number_value] in *.
  - destruct (float_of_int_close n x Hx) as [Flo Fhi].
    assert (En : Z.abs n = n).
    { apply Z.abs_eq. change 0 with (inject_Z 0) in Hb.
      now rewrite <- Zle_Qle in Hb. }
    rewrite En in Flo, Fhi. split; lra.
  - injection Hx as <-. split; lra.
Qed.

Lemma format_bytes_accuracy_witness :
  exists (k : nat) (v : Q),
    (k <= 5)%nat
    /\ format_bytes (Int 9288674231451649)
       = Return
           (Py.format_fixed 1 (scaled 9288674231451648 k)
              ++ nth k byte_units "")
    /\ leading_value
         (Py.format_fixed 1 (scaled 9288674231451648 k) ++ nth k byte_units "")
       = Some v
    /\ scaled 9288674231451648 k - (1 # 20) <= v
    /\ v <= scaled 9288674231451648 k + (1 # 20)
    /\ inject_Z 9288674231451649 * (1 - (1 # 9007199254740992))
       <= 9288674231451648
    /\ 9288674231451648
       <= inject_Z 9288674231451649 * (1 + (1 # 9007199254740992)).
Proof.
  apply (format_bytes_accuracy (Int 9288674231451649) 9288674231451648).
  - discriminate.
  - reflexivity.
Defined.

(** From 1024 bytes on, a unit above B is used and the number printed is
    1.0 at least: a count is not scaled further than its size allows. *)
Theorem format_bytes_at_least_one (bytes : number) (x : Q) :
  1024 <= number_value bytes -> to_float bytes = Return x ->
  exists (k : nat) (v : Q),
    (1 <= k <= 5)%nat
    /\ format_bytes bytes
       = Return (Py.format_fixed 1 (scaled x k) ++ nth k byte_units "")
    /\ leading_value (Py.format_fixed 1 (scaled x k) ++ nth k byte_units "")
       = Some v
    /\ 1 <= v.
Proof.
  intros Hb Hx.
  assert (Hx1 : 1024 <= x) by (now apply (to_float_sign bytes x Hx)).
  destruct (format_float_reads_back x ltac:(lra))
    as (k & v & Hk & Hlo & Hhi & Hfmt & Hv & Ev).
  assert (Hk1 : (1 <= k)%nat).
  { destruct k as [|k]; [|lia]. exfalso.
    destruct Hhi as [Hhi | Hhi]; [discriminate Hhi|].
    change (inject_Z (1024 ^ Z.of_nat (0 + 1))) with 1024 in Hhi. lra. }
  destruct Hlo as [-> | Hlo]; [lia|].
  assert (Hs : 1 <= scaled x k).
  { unfold scaled. apply Qle_shift_div_l.
    - apply inject_Z_pos. apply Z.pow_pos_nonneg; lia.
    - now rewrite Qmult_1_l. }
  exists k, v. rewrite (format_bytes_to_float bytes x Hx), Hfmt.
  rewrite Hfmt in Hv.
  split; [lia|]. split; [reflexivity|]. split; [assumption|].
  assert (Ht : (Qfloor 10 <= Qfloor (scaled x k * 10))%Z)
    by (apply Qfloor_resp_le; lra).
  change (Qfloor 10) with 10%Z in Ht.
  pose proof (round_half_even_floor (scaled x k * 10)) as Hfl.
  assert (Ht' : (10 <= Py.round_half_even (scaled x k * 10))%Z) by lia.
  rewrite Zle_Qle in Ht'. change (inject_Z 10) with 10 in Ht'.
  change (inject_Z (Py.round_half_even (scaled x k * 10)) / 10)
    with (inject_Z (Py.round_half_even (scaled x k * 10)) * (1 # 10)) in Ev.
  lra.
Qed.

Lemma format_bytes_at_least_one_witness :
  exists (k : nat) (v : Q),
    (1 <= k <= 5)%nat
    /\ format_bytes (Int 1536)
       = Return (Py.format_fixed 1 (scaled 1536 k) ++ nth k byte_units "")
    /\ leading_value (Py.format_fixed 1 (scaled 1536 k) ++ nth k byte_units "")
       = Some v
    /\ 1 <= v.
Proof.
  apply (format_bytes_at_least_one (Int 1536) 1536).
  - discriminate.
  - reflexivity.
Defined.

(* ------------------------------------------------------------------ *)
(** * The tools, one by one *)

Lemma format_bytes_fits (n : Z) :
  fits_float n -> exists s : string, format_bytes (Int n) = Return s.
Proof.
  intros Hn. destruct (float_of_int_returns n Hn) as [x Hx].
  eexists. apply (format_bytes_to_float (Int n) x Hx).
Qed.

Section ToolFacts.
Variable repr_float : Q -> string.
Variable str_upper : string -> string.
Variable strftime : Q -> string.

Local Ltac run_format_bytes :=
  repeat match goal with
         | |- context [bind (format_bytes ?b) _] =>
             let E := fresh "E" in
             destruct (format_bytes b) eqn:E; cbn [bind]
         end.

Lemma get_system_status_error (os : psutil) (e : Exception) :
  get_system_status repr_float strftime os = Raise e ->
  e = OverflowError "int too large to convert to float".
Proof.
  unfold get_system_status. destruct (getloadavg os) as [[load1 load5] load15].
  run_format_bytes; intros H;
    first [discriminate H
          | injection H as <-; eapply format_bytes_error; eassumption].
Qed.

Lemma get_system_status_returns (os : psutil) :
  sizes_fit os ->
  exists txt : string, get_system_status repr_float strftime os = Return txt.
Proof.
  intros (H1 & H2 & H3 & H4 & H5 & H6 & H7 & H8).
  destruct (get_system_status repr_float strftime os) as [txt | e] eqn:E;
    [eexists; reflexivity | exfalso].
  revert E. unfold get_system_status.
  destruct (getloadavg os) as [[load1 load5] load15].
  repeat match goal with
         | H : fits_float ?n |- _ =>
             let s := fresh "s" in
             let Es := fresh "Es" in
             destruct (format_bytes_fits n H) as [s Es]; rewrite Es; clear H
         end.
  cbn [bind]. discriminate.
Qed.

Lemma get_network_stats_error (os : psutil) (e : Exception) :
  get_network_stats os = Raise e ->
  e = AttributeError "'NoneType' object has no attribute 'bytes_sent'"
  \/ e = OverflowError "int too large to convert to float".
Proof.
  unfold get_network_stats. destruct (net_io_counters os) as [stats|].
  - run_format_bytes; intros H;
      first [discriminate H
            | right; injection H as <-; eapply format_bytes_error; eassumption].
  - intros [= <-]. now left.
Qed.

Lemma get_network_stats_returns (os : psutil) (stats : snetio.t) :
  net_io_counters os = Some stats ->
  fits_float (snetio.bytes_sent stats) ->
  fits_float (snetio.bytes_recv stats) ->
  exists txt : string, get_network_stats os = Return txt.
Proof.
  intros Hstats Hs Hr. unfold get_network_stats. rewrite Hstats.
  destruct (format_bytes_fits _ Hs) as [s Es].
  destruct (format_bytes_fits _ Hr) as [r Er].
  rewrite Es. cbn [bind]. rewrite Er. cbn [bind]. eexists. reflexivity.
Qed.

(** With an [int] and a [str] the report is the one of the sort, the cut
    and the rendering. *)
Lemma get_top_processes_of_typed (processes : list Process) (limit : Z)
    (sort_by : string) :
  get_top_processes_of str_upper processes (PyInt limit) (PyStr sort_by)
  = Return (top_processes_report str_upper processes limit sort_by).
Proof.
  unfold get_top_processes_of, top_processes_report, processes_header.
  cbn [upper_of text_and_slice bind fst snd]. do 3 f_equal.
  destruct (String.eqb_spec sort_by "memory") as [-> | Hne]; [reflexivity|].
  destruct sort_by as [|c sort_by]; [reflexivity|].
  repeat match goal with
         | |- context [match ?c with Ascii _ _ _ _ _ _ _ _ => _ end] =>
             destruct c
         | |- context [match ?b with true => _ | false => _ end] =>
             destruct b
         | |- context [match ?t with EmptyString => _ | String _ _ => _ end] =>
             destruct t
         end; try reflexivity; congruence.
Qed.

Lemma get_top_processes_of_cases (processes : list Process)
    (limit sort_by : pyobj) :
  (is_str sort_by = false ->
   get_top_processes_of str_upper processes limit sort_by
   = Raise (AttributeError
              ("'" ++ type_name sort_by ++ "' object has no attribute 'upper'")))
  /\ (is_str sort_by = true -> bounds_slice limit = false ->
      get_top_processes_of str_upper processes limit sort_by
      = Raise (TypeError
                 "slice indices must be integers or None or have an __index__ method"))
  /\ (is_str sort_by = true -> bounds_slice limit = true ->
      exists txt : string,
        get_top_processes_of str_upper processes limit sort_by = Return txt).
Proof.
  unfold get_top_processes_of.
  destruct sort_by as [| b | n | x | s | |]; cbn [is_str upper_of bind];
    (split; [intros H; first [discriminate H | reflexivity]|]);
    (split; intros H; try discriminate H);
    destruct limit as [| [|] | n' | x' | s' | |];
    cbn [bounds_slice text_and_slice bind]; intros H';
    first [discriminate H' | reflexivity | eexists; reflexivity].
Qed.

Lemma call_known_not_value_error (os : psutil) (name : string)
    (arguments : option dict) :
  In name tool_names ->
  forall msg : string,
    handle_call_tool repr_float str_upper strftime os name arguments
    <> Raise (ValueError msg).
Proof.
  intros Hin msg. cbn in Hin.
  repeat destruct Hin as [Hin | Hin]; try contradiction; subst name;
    unfold handle_call_tool; cbn [String.eqb Ascii.eqb Bool.eqb].
  - destruct (get_system_status repr_float strftime os) as [txt | e] eqn:E;
      cbn [bind]; [discriminate|].
    apply get_system_status_error in E. subst e. discriminate.
  - change (bind
              (get_top_processes str_upper os
                 match arguments with
                 | Some a => dict_get a "limit" (PyInt 10)
                 | None => PyInt 10
                 end
                 match arguments with
                 | Some a => dict_get a "sort_by" (PyStr "cpu")
                 | None => PyStr "cpu"
                 end)
              (fun result => Return (text_content result)))
      with (result <- get_top_processes_of str_upper
                        (map process_of_info (process_iter os))
                        (argument arguments "limit" (PyInt 10))
                        (argument arguments "sort_by" (PyStr "cpu")) ;;
            Return (text_content result)).
    set (limit := argument arguments "limit" (PyInt 10)).
    set (sort_by := argument arguments "sort_by" (PyStr "cpu")).
    destruct (get_top_processes_of_cases
                (map process_of_info (process_iter os)) limit sort_by)
      as (Hattr & Htype & Hok).
    destruct (is_str sort_by) eqn:Es.
    + destruct (bounds_slice limit) eqn:El.
      * destruct (Hok eq_refl eq_refl) as [txt ->]. discriminate.
      * rewrite (Htype eq_refl eq_refl). discriminate.
    + rewrite (Hattr eq_refl). discriminate.
  - destruct (get_network_stats os) as [txt | e] eqn:E;
      cbn [bind]; [discriminate|].
    apply get_network_stats_error in E. destruct E as [-> | ->]; discriminate.
  - discriminate.
  - discriminate.
Qed.

End ToolFacts.

(** C8, refuted as stated: [get_network_stats] is one of the five names,
    and on a machine without network counters the call raises
    [AttributeError]; [get_top_processes] is another, and with a limit
    that is a text the call raises [TypeError]. *)
Lemma handle_call_tool_dispatch_counterexample :
  In "get_network_stats" tool_names
  /\ handle_call_tool (fun _ => "") (fun s => s) (fun _ => "")
       (with_net_io_counters (sample 0 0 0 0) None) "get_network_stats" None
     = Raise (AttributeError "'NoneType' object has no attribute 'bytes_sent'")
  /\ In "get_top_processes" tool_names
  /\ handle_call_tool (fun _ => "") (fun s => s) (fun _ => "")
       (sample 0 0 0 0) "get_top_processes" (Some [("limit", PyStr "5")])
     = Raise (TypeError
                "slice indices must be integers or None or have an __index__ method").
Proof.
  split; [cbn; tauto|]. split; [reflexivity|].
  split; [cbn; tauto | reflexivity].
Qed.

(** C8, amended: a name outside the five raises the error for an unknown
    tool; a name among the five never does.  [get_cpu_details] and
    [check_alerts] always return a text; [get_system_status] returns one
    when the sizes convert to floats; [get_network_stats] raises
    [AttributeError] when the machine has no network counters and returns
    a text when it has and the two byte counts convert;
    [get_top_processes] returns a text when [sort_by] is a [str] and
    [limit] an [int], a [bool] or [None] (each its default when absent),
    raises [AttributeError] when [sort_by] is not a [str], and [TypeError]
    when [sort_by] is a [str] and [limit] cannot bound a slice. *)
Theorem handle_call_tool_dispatch (repr_float : Q -> string)
    (str_upper : string -> string) (strftime : Q -> string)
    (os : psutil) (name : string) (arguments : option dict) :
  let call :=
    handle_call_tool repr_float str_upper strftime os name arguments in
  let returns_text :=
    exists txt : string,
      call = Return [ {| content_type := "text"; text := txt |} ] in
  (~ In name tool_names -> call = Raise (ValueError ("Unknown tool: " ++ name)))
  /\ (In name tool_names -> forall msg : string, call <> Raise (ValueError msg))
  /\ (name = "get_cpu_details" \/ name = "check_alerts" -> returns_text)
  /\ (name = "get_system_status" -> sizes_fit os -> returns_text)
  /\ (name = "get_network_stats" ->
      (net_io_counters os = None ->
       call = Raise (AttributeError
                       "'NoneType' object has no attribute 'bytes_sent'"))
      /\ (forall stats : snetio.t,
            net_io_counters os = Some stats ->
            fits_float (snetio.bytes_sent stats) ->
            fits_float (snetio.bytes_recv stats) -> returns_text))
  /\ (name = "get_top_processes" ->
      let limit := argument arguments "limit" (PyInt 10) in
      let sort_by := argument arguments "sort_by" (PyStr "cpu") in
      (is_str sort_by = true -> bounds_slice limit = true -> returns_text)
      /\ (is_str sort_by = false ->
          call = Raise (AttributeError
                          ("'" ++ type_name sort_by
                             ++ "' object has no attribute 'upper'")))
      /\ (is_str sort_by = true -> bounds_slice limit = false ->
          call = Raise (TypeError
                          "slice indices must be integers or None or have an __index__ method"))).
Proof.
  cbv zeta.
  split; [apply call_unknown|].
  split; [apply call_known_not_value_error|].
  split.
  { intros [-> | ->]; eexists; reflexivity. }
  split.
  { intros -> Hfit.
    destruct (get_system_status_returns repr_float strftime os Hfit)
      as [txt E].
    exists txt. unfold handle_call_tool. cbn [String.eqb Ascii.eqb Bool.eqb].
    now rewrite E. }
  split.
  { intros ->. unfold handle_call_tool. cbn [String.eqb Ascii.eqb Bool.eqb].
    split.
    - intros Hnone. unfold get_network_stats. now rewrite Hnone.
    - intros stats Hstats Hs Hr.
      destruct (get_network_stats_returns os stats Hstats Hs Hr) as [txt E].
      exists txt. now rewrite E. }
  intros ->.
  change (handle_call_tool repr_float str_upper strftime os
            "get_top_processes" arguments)
    with (result <- get_top_processes_of str_upper
                      (map process_of_info (process_iter os))
                      (argument arguments "limit" (PyInt 10))
                      (argument arguments "sort_by" (PyStr "cpu")) ;;
          Return (text_content result)).
  set (limit := argument arguments "limit" (PyInt 10)).
  set (sort_by := argument arguments "sort_by" (PyStr "cpu")).
  destruct (get_top_processes_of_cases str_upper
              (map process_of_info (process_iter os)) limit sort_by)
    as (Hattr & Htype & Hok).
  split; [|split].
  - intros Hs Hl. destruct (Hok Hs Hl) as [txt E].
    exists txt. now rewrite E.
  - intros Hs. now rewrite (Hattr Hs).
  - intros Hs Hl. now rewrite (Htype Hs Hl).
Qed.

Lemma handle_call_tool_dispatch_witness :
  handle_call_tool (fun _ => "") (fun s => s) (fun _ => "")
    (sample 0 0 0 0) "Check_Alerts" None
  = Raise (ValueError "Unknown tool: Check_Alerts")
  /\ (exists txt : string,
        handle_call_tool (fun _ => "") (fun s => s) (fun _ => "")
          (sample 0 0 0 0) "get_system_status" None
        = Return [ {| content_type := "text"; text := txt |} ])
  /\ (exists txt : string,
        handle_call_tool (fun _ => "") (fun s => s) (fun _ => "")
          (sample 0 0 0 0) "get_top_processes"
          (Some [("limit", PyNone); ("sort_by", PyStr "disk")])
        = Return [ {| content_type := "text"; text := txt |} ]).
Proof.
  pose proof (handle_call_tool_dispatch (fun _ => "") (fun s => s)
                (fun _ => "") (sample 0 0 0 0) "Check_Alerts" None) as H1.
  pose proof (handle_call_tool_dispatch (fun _ => "") (fun s => s)
                (fun _ => "") (sample 0 0 0 0) "get_system_status" None) as H2.
  pose proof (handle_call_tool_dispatch (fun _ => "") (fun s => s)
                (fun _ => "") (sample 0 0 0 0) "get_top_processes"
                (Some [("limit", PyNone); ("sort_by", PyStr "disk")])) as H3.
  cbv zeta in H1, H2, H3.
  destruct H1 as (Hunknown & _).
  destruct H2 as (_ & _ & _ & Hstatus & _).
  destruct H3 as (_ & _ & _ & _ & _ & Htop).
  split; [|split].
  - apply Hunknown. cbn. intuition discriminate.
  - apply Hstatus; [reflexivity|]. repeat split; reflexivity.
  - apply (proj1 (Htop eq_refl)); reflexivity.
Defined.

(** C10, refuted as stated: a [sort_by] that is not a [str], 5 for one,
    is not the word "memory", and the call raises [AttributeError]. *)
Lemma invalid_sort_key_is_cpu_counterexample :
  PyInt 5 <> PyStr "memory"
  /\ get_top_processes_of (fun s => s) three_processes (PyInt 10) (PyInt 5)
     = Raise (AttributeError "'int' object has no attribute 'upper'")
  /\ handle_call_tool (fun _ => "") (fun s => s) (fun _ => "")
       (sample 0 0 0 0) "get_top_processes" (Some [("sort_by", PyInt 5)])
     = Raise (AttributeError "'int' object has no attribute 'upper'").
Proof. split; [discriminate|]. split; reflexivity. Qed.

(** C10, amended: for every [sort_by] that is a [str] other than the
    exact word "memory" (a word outside cpu and memory too) and every
    [int] limit, the call returns the report of the list sorted descending
    by the cpu fraction, entries of equal fraction in their original order,
    cut at the limit, under a header that shows the word in upper case; a
    [sort_by] that is not a [str] raises [AttributeError], whatever the
    limit. *)
Theorem invalid_sort_key_is_cpu (repr_float : Q -> string)
    (str_upper : string -> string) (strftime : Q -> string)
    (os : psutil) (processes : list Process) :
  (forall (sort_by : string) (limit : Z),
      sort_by <> "memory" ->
      exists sorted : list Process,
        Permutation processes sorted
        /\ StronglySorted (descending proc_cpu_percent) sorted
        /\ (forall k : Q,
              with_fraction proc_cpu_percent k sorted
              = with_fraction proc_cpu_percent k processes)
        /\ get_top_processes_of str_upper processes (PyInt limit)
             (PyStr sort_by)
           = Return
               (processes_header str_upper limit sort_by
                  ++ concat_all (numbered_entries (Py.slice_to limit sorted))))
  /\ (forall (sort_by : string) (limit : Z),
        sort_by <> "memory" ->
        exists sorted : list Process,
          Permutation (map process_of_info (process_iter os)) sorted
          /\ StronglySorted (descending proc_cpu_percent) sorted
          /\ (forall k : Q,
                with_fraction proc_cpu_percent k sorted
                = with_fraction proc_cpu_percent k
                    (map process_of_info (process_iter os)))
          /\ handle_call_tool repr_float str_upper strftime os
               "get_top_processes"
               (Some [("limit", PyInt limit); ("sort_by", PyStr sort_by)])
             = Return
                 [ {| content_type := "text";
                      text :=
                        processes_header str_upper limit sort_by
                          ++ concat_all
                               (numbered_entries (Py.slice_to limit sorted))
                   |} ])
  /\ (forall sort_by limit : pyobj,
        is_str sort_by = false ->
        get_top_processes_of str_upper processes limit sort_by
        = Raise (AttributeError
                   ("'" ++ type_name sort_by
                      ++ "' object has no attribute 'upper'"))).
Proof.
  split; [|split].
  - intros sort_by limit Hkey.
    exists (Py.sort_desc proc_cpu_percent processes).
    split; [apply sort_desc_perm|].
    split; [apply sort_desc_sorted|].
    split; [intros k; apply sort_desc_stable|].
    rewrite get_top_processes_of_typed, top_processes_report_eq.
    unfold selected_fraction.
    apply String.eqb_neq in Hkey. now rewrite Hkey.
  - intros sort_by limit Hkey.
    exists (Py.sort_desc proc_cpu_percent
              (map process_of_info (process_iter os))).
    split; [apply sort_desc_perm|].
    split; [apply sort_desc_sorted|].
    split; [intros k; apply sort_desc_stable|].
    unfold handle_call_tool, get_top_processes.
    cbn [String.eqb Ascii.eqb Bool.eqb dict_get find].
    rewrite get_top_processes_of_typed. cbn [bind].
    rewrite top_processes_report_eq. unfold selected_fraction.
    apply String.eqb_neq in Hkey. now rewrite Hkey.
  - intros sort_by limit Hs.
    apply (get_top_processes_of_cases str_upper processes limit sort_by), Hs.
Qed.

Lemma invalid_sort_key_is_cpu_witness :
  (exists sorted : list Process,
      Permutation three_processes sorted
      /\ StronglySorted (descending proc_cpu_percent) sorted
      /\ (forall k : Q,
            with_fraction proc_cpu_percent k sorted
            = with_fraction proc_cpu_percent k three_processes)
      /\ get_top_processes_of (fun s => s) three_processes (PyInt 2)
           (PyStr "disk")
         = Return
             (processes_header (fun s => s) 2 "disk"
                ++ concat_all (numbered_entries (Py.slice_to 2 sorted))))
  /\ get_top_processes_of (fun s => s) three_processes (PyInt 2) PyNone
     = Raise (AttributeError
                ("'" ++ type_name PyNone
                   ++ "' object has no attribute 'upper'")).
Proof.
  pose proof (invalid_sort_key_is_cpu (fun _ => "") (fun s => s)
                (fun _ => "") (sample 0 0 0 0) three_processes)
    as (Hstr & _ & Hother).
  split.
  - apply (Hstr "disk" 2%Z). discriminate.
  - apply (Hother PyNone (PyInt 2)). reflexivity.
Defined.

(* ------------------------------------------------------------------ *)
(** * The tools advertised and the tools served *)

(** The names advertised are the names served: a call raises the error
    for an unknown tool exactly when its name is not advertised.  No tool
    requires an argument; a tool that advertises no property answers the
    same whatever its arguments; and the defaults advertised for
    [get_top_processes] are the values taken for the keys that a call
    leaves out. *)
Theorem advertised_tools_are_served (repr_float : Q -> string)
    (str_upper : string -> string) (strftime : Q -> string) (os : psutil) :
  (forall (name : string) (arguments : option dict),
      (exists msg : string,
          handle_call_tool repr_float str_upper strftime os name arguments
          = Raise (ValueError msg))
      <-> ~ In name (map tool_name handle_list_tools))
  /\ (forall t : Tool,
        In t handle_list_tools ->
        tool_required t = []
        /\ (tool_properties t = [] ->
            forall arguments : option dict,
              handle_call_tool repr_float str_upper strftime os (tool_name t)
                arguments
              = handle_call_tool repr_float str_upper strftime os
                  (tool_name t) None))
  /\ (forall t : Tool,
        In t handle_list_tools -> tool_name t = "get_top_processes" ->
        exists (l : Z) (s : string),
          schema_default t "limit" = Some (DefaultInt l)
          /\ schema_default t "sort_by" = Some (DefaultStr s)
          /\ forall arguments : option dict,
              handle_call_tool repr_float str_upper strftime os
                "get_top_processes" arguments
              = (result <- get_top_processes str_upper os
                             (argument arguments "limit" (PyInt l))
                             (argument arguments "sort_by" (PyStr s)) ;;
                 Return [ {| content_type := "text"; text := result |} ])).
Proof.
  split; [|split].
  - intros name arguments.
    change (map tool_name handle_list_tools) with tool_names. split.
    + intros [msg Hraise] Hin.
      apply (call_known_not_value_error repr_float str_upper strftime os name
               arguments Hin msg Hraise).
    + intros Hout. eexists. now apply call_unknown.
  - intros t Hin. cbn in Hin.
    repeat destruct Hin as [Hin | Hin]; try contradiction; subst t;
      (split; [reflexivity|]); cbn; intros Hp arguments;
      first [discriminate Hp | reflexivity].
  - intros t Hin Hname. cbn in Hin.
    repeat destruct Hin as [Hin | Hin]; try contradiction; subst t;
      try discriminate Hname.
    exists 10%Z, "cpu". repeat split; reflexivity.
Qed.

Lemma advertised_tools_are_served_witness :
  let t := {| tool_name := "get_cpu_details";
              tool_description :=
                "Get detailed CPU information including per-core usage and frequency";
              tool_properties := [];
              tool_required := [] |} in
  tool_required t = []
  /\ (tool_properties t = [] ->
      forall arguments : option dict,
        handle_call_tool (fun _ => "") (fun s => s) (fun _ => "")
          (sample 0 0 0 0) (tool_name t) arguments
        = handle_call_tool (fun _ => "") (fun s => s) (fun _ => "")
            (sample 0 0 0 0) (tool_name t) None).
Proof.
  cbv zeta.
  apply (proj1 (proj2 (advertised_tools_are_served (fun _ => "") (fun s => s)
                         (fun _ => "") (sample 0 0 0 0)))).
  cbn. tauto.
Defined.
